(** * HdlcInterface: the HDLC transport of the POSIX radio driver

    A shallow embedding of [src/posix/platform/hdlc_interface.cpp]
    (class [ot::PosixApp::HdlcInterface]) and the properties of its
    write loop, read cycle, provisioning and teardown.

    Conventions of the embedding:
    - C integers are [Z]; a conversion to a fixed-width type is written
      out ([uint16_t], [int32_t]).
    - A pointer into a byte array is the array (a [list byte]) together
      with an offset.
    - The operating system is an oracle [OS]: the value every system call
      returns, indexed by the number of the call where a call is repeated.
      What the program did to the outside is collected in a [World].
    - A function that can end the process returns an [outcome]. *)

From Stdlib Require Import ZArith List String Ascii Bool Lia.
From Stdlib Require Import Strings.Byte.
Import ListNotations.
Local Open Scope Z_scope.

(** ** Fixed-width integers *)

(** [static_cast<uint16_t>(z)] *)
Definition uint16_t (z : Z) : Z := z mod 2 ^ 16.

(** The value of a 32-bit object read as [int]. *)
Definition int32_t (z : Z) : Z := (z + 2 ^ 31) mod 2 ^ 32 - 2 ^ 31.

(** ** Error codes and process termination *)

(** [otError] is declared in [openthread/error.h]; these are the enumerators
    the driver names and those the codec can hand back through it. *)
Inductive otError : Set :=
| OT_ERROR_NONE
| OT_ERROR_FAILED
| OT_ERROR_NO_BUFS
| OT_ERROR_PARSE
| OT_ERROR_INVALID_ARGS
| OT_ERROR_ALREADY.

Definition otError_eqb (a b : otError) : bool :=
  match a, b with
  | OT_ERROR_NONE, OT_ERROR_NONE
  | OT_ERROR_FAILED, OT_ERROR_FAILED
  | OT_ERROR_NO_BUFS, OT_ERROR_NO_BUFS
  | OT_ERROR_PARSE, OT_ERROR_PARSE
  | OT_ERROR_INVALID_ARGS, OT_ERROR_INVALID_ARGS
  | OT_ERROR_ALREADY, OT_ERROR_ALREADY => true
  | _, _ => false
  end.

(** The exit statuses of [platform-posix.h] used by this file. *)
Inductive ExitStatus : Set :=
| OT_EXIT_FAILURE
| OT_EXIT_INVALID_ARGUMENTS.

(** How a call ends: it returns, or the process ends under it. *)
Inductive outcome (A : Type) : Type :=
| Returns (a : A)                 (* control comes back to the caller *)
| Exits (status : ExitStatus)     (* exit(status) *)
| Aborts                          (* abort() *)
| AssertFails                     (* assert(e) with e false, assertions compiled in *)
| Execs (shell cmd : string)      (* execl() replaced the process image *)
| OutOfFuel.                      (* the model ran out of steps; not a behaviour *)

Arguments Returns {A} a.
Arguments Exits {A} status.
Arguments Aborts {A}.
Arguments AssertFails {A}.
Arguments Execs {A} shell cmd.
Arguments OutOfFuel {A}.

Definition bind {A B : Type} (m : outcome A) (k : A -> outcome B) : outcome B :=
  match m with
  | Returns a => k a
  | Exits s => Exits s
  | Aborts => Aborts
  | AssertFails => AssertFails
  | Execs sh c => Execs sh c
  | OutOfFuel => OutOfFuel
  end.

Declare Scope outcome_scope.
Delimit Scope outcome_scope with outcome.
Notation "x <- m ;; k" := (bind m (fun x => k))
  (at level 61, m at next level, right associativity) : outcome_scope.
Notation "' p <- m ;; k" := (bind m (fun p => k))
  (at level 61, p pattern, m at next level, right associativity) : outcome_scope.
Local Open Scope outcome_scope.

Definition terminates_process {A : Type} (o : outcome A) : bool :=
  match o with
  | Exits _ | Aborts | AssertFails => true
  | _ => false
  end.

(** ** Build configuration

    What the preprocessor and the headers that are not part of this file
    decide. *)
Record BuildConfig : Type := {
  NDEBUG : bool;                       (* assert() compiled out *)
  OPENTHREAD_POSIX_VIRTUAL_TIME : bool;
  OPENTHREAD_CONFIG_POSIX_APP_ENABLE_PTY_DEVICE : bool;
  kMaxFrameSize : Z;                   (* HdlcInterface::kMaxFrameSize *)
  EAGAIN : Z;
  O_NONBLOCK : Z;
  LONG_BIT : Z;                        (* width of long: what strtol saturates at *)
  (* <termios.h> control-mode bits *)
  CS8 : Z; HUPCL : Z; CREAD : Z; CLOCAL : Z;
  PARENB : Z; PARODD : Z; CSTOPB : Z;
  (* the B<rate> macros: whether <termios.h> defines one of the optional
     ones, and the value of each *)
  B_defined : Z -> bool;
  B : Z -> Z
}.

(** ** The outside world *)

Record Termios : Type := {
  c_cflag : Z;
  c_speed : Z
}.

Inductive Event : Type :=
| EvPerror (msg : string)
| EvLog (msg : string)
| EvSimWrite (frame : list byte)             (* otSimSendRadioSpinelWriteEvent *)
| EvWrite (fd off count rv err : Z)          (* write(fd, buf + off, count) gave rv, errno err *)
| EvRead (fd count rv : Z)                   (* read(fd, buffer, count) gave rv *)
| EvDecode (bytes : list byte)               (* mHdlcDecoder.Decode(aBuffer, aLength) entered *)
| EvFrameEnter (frame : list byte) (decoding : bool)  (* HandleReceivedFrame entered *)
| EvFrameLeave (decoding : bool)                      (* HandleReceivedFrame returned *)
| EvTcsetattr (fd : Z) (tios : Termios)
| EvTcflush (fd : Z)
| EvClose (fd : Z)
| EvWait.

Record World : Type := {
  w_errno : Z;             (* errno *)
  w_nwrite : nat;          (* write() calls issued so far *)
  w_nread : nat;           (* read() calls issued so far *)
  w_tx : list byte;        (* the bytes the channel accepted, in order *)
  w_trace : list Event     (* everything else the program did, in order *)
}.

Definition emit (e : Event) (w : World) : World :=
  {| w_errno := w_errno w; w_nwrite := w_nwrite w; w_nread := w_nread w;
     w_tx := w_tx w; w_trace := w_trace w ++ [e] |}.

Definition otLogCritPlat (msg : string) (w : World) : World := emit (EvLog msg) w.
Definition otLogWarnPlat (msg : string) (w : World) : World := emit (EvLog msg) w.

(** What a system call hands back: its return value and the [errno] it
    leaves when that value is negative. *)
Record SysResult : Type := {
  rval : Z;
  errno : Z
}.

(** What [read] hands back: as above, and the caller's buffer as the call
    left it (the bytes read at its start). *)
Record ReadResult : Type := {
  r_rval : Z;
  r_errno : Z;
  r_buffer : list byte
}.

Inductive FileType : Set := S_IFCHR | S_IFREG | S_IFOTHER.

Record OS : Type := {
  os_write : nat -> Z -> Z -> SysResult;   (* k-th write(fd, _, count) *)
  os_read : nat -> Z -> Z -> ReadResult;   (* k-th read(fd, _, count) *)
  os_close : Z -> Z;                       (* close(fd) *)
  os_wait : Z;                             (* wait(NULL) *)
  os_stat : string -> option FileType;     (* stat(path): None when it fails *)
  os_open : string -> Z;                   (* open(path, O_RDWR|O_NOCTTY|O_NONBLOCK) *)
  os_isatty : Z -> bool;
  os_tcgetattr : Z -> Z;
  os_cfsetspeed : Z -> Z;                  (* cfsetspeed(&tios, speed) *)
  os_tcsetattr : Z -> Z;
  os_tcflush : Z -> Z;
  os_forkpty_pid : Z;                      (* forkpty(&fd, ...) *)
  os_forkpty_fd : Z;                       (* what forkpty left in fd *)
  os_setenv : Z;
  os_execl_fails : bool;                   (* execl() came back *)
  os_getenv_SHELL : string;
  os_rlim_cur : Z;                         (* getrlimit(RLIMIT_NOFILE): rlim_cur *)
  os_fcntl_getfl : Z -> Z;                 (* fcntl(fd, F_GETFL) *)
  os_fcntl_setfl : Z -> Z -> Z;            (* fcntl(fd, F_SETFL, flags) *)
  os_perror : Z -> Z                       (* errno after perror(), from errno before *)
}.

(** [perror] reports on the standard error stream, and may leave another
    value in [errno] than the one it found. *)
Definition perror (os : OS) (msg : string) (w : World) : World :=
  {| w_errno := os_perror os (w_errno w); w_nwrite := w_nwrite w;
     w_nread := w_nread w; w_tx := w_tx w;
     w_trace := w_trace w ++ [EvPerror msg] |}.

(** [write(fd, buf + off, count)]: the channel takes the first [rval] bytes
    at the pointer when [rval] is positive. *)
Definition sys_write (os : OS) (fd : Z) (buf : list byte) (off count : Z)
    (w : World) : Z * World :=
  let r := os_write os (w_nwrite w) fd count in
  let sent := if 0 <? rval r
              then firstn (Z.to_nat (rval r)) (skipn (Z.to_nat off) buf)
              else [] in
  (rval r,
   {| w_errno := if rval r <? 0 then errno r else w_errno w;
      w_nwrite := S (w_nwrite w);
      w_nread := w_nread w;
      w_tx := w_tx w ++ sent;
      w_trace := w_trace w ++ [EvWrite fd off count (rval r) (errno r)] |}).

(** [read(fd, buffer, count)] *)
Definition sys_read (os : OS) (fd count : Z) (w : World) : Z * list byte * World :=
  let r := os_read os (w_nread w) fd count in
  (r_rval r, r_buffer r,
   {| w_errno := if r_rval r <? 0 then r_errno r else w_errno w;
      w_nwrite := w_nwrite w;
      w_nread := S (w_nread w);
      w_tx := w_tx w;
      w_trace := w_trace w ++ [EvRead fd count (r_rval r)] |}).

(** ** HdlcInterface::Write *)

(** The locals of the write loop. *)
Record WriteLocals : Type := {
  error : otError;
  aFrame : Z;       (* offset of the pointer into the frame buffer *)
  aLength : Z
}.

(** One turn of the body of [while (aLength)], after [write] returned [rv]:
    either the loop goes on with the locals updated, or [ExitNow]. *)
Definition Write_body (rv : Z) (l : WriteLocals) : WriteLocals * bool :=
  if 0 <? rv then
    ({| error := error l;
        aFrame := aFrame l + uint16_t rv;
        aLength := uint16_t (aLength l - uint16_t rv) |}, true)
  else if rv <? 0 then
    ({| error := OT_ERROR_FAILED; aFrame := aFrame l; aLength := aLength l |}, false)
  else
    ({| error := OT_ERROR_FAILED; aFrame := aFrame l; aLength := aLength l |}, false).

Fixpoint Write_loop (os : OS) (fuel : nat) (fd : Z) (buf : list byte)
    (l : WriteLocals) (w : World) : outcome (WriteLocals * World) :=
  match fuel with
  | O => OutOfFuel
  | S fuel' =>
      if aLength l =? 0 then Returns (l, w)
      else
        let '(rv, w1) := sys_write os fd buf (aFrame l) (aLength l) w in
        let w2 := if rv <? 0 then perror os "HdlcInterface::Write" w1 else w1 in
        let '(l', continue) := Write_body rv l in
        if continue then Write_loop os fuel' fd buf l' w2
        else Returns (l', w2)
  end.

(** [Write(aFrame, aLength)] on descriptor [fd], the pointer being the start
    of [buf]. *)
Definition Write_locals (cfg : BuildConfig) (os : OS) (fuel : nat) (fd : Z)
    (buf : list byte) (len : Z) (w : World) : outcome (WriteLocals * World) :=
  let l := {| error := OT_ERROR_NONE; aFrame := 0; aLength := len |} in
  if OPENTHREAD_POSIX_VIRTUAL_TIME cfg then
    Returns (l, emit (EvSimWrite (firstn (Z.to_nat len) buf)) w)
  else Write_loop os fuel fd buf l w.

Definition Write (cfg : BuildConfig) (os : OS) (fuel : nat) (fd : Z)
    (buf : list byte) (len : Z) (w : World) : outcome (otError * World) :=
  '(l, w') <- Write_locals cfg os fuel fd buf len w ;;
  Returns (error l, w').

(** ** The codec, as this file sees it

    [Hdlc::Encoder] and [Hdlc::Decoder] live in [hdlc.cpp], outside this
    file; the driver is stated over any implementation of them. *)

(** [EncoderBuffer]: the write iterator over a local array of
    [kMaxFrameSize] bytes. *)
Record EncoderBuffer : Type := {
  mBuffer : list byte;
  mWritePointer : Z;          (* offset into mBuffer *)
  mRemainingLength : Z
}.

Definition EncoderBuffer_new (cfg : BuildConfig) : EncoderBuffer :=
  {| mBuffer := repeat "000"%byte (Z.to_nat (kMaxFrameSize cfg));
     mWritePointer := 0;
     mRemainingLength := kMaxFrameSize cfg |}.

Definition GetLength (b : EncoderBuffer) : Z := uint16_t (mWritePointer b - 0).
Definition GetBuffer (b : EncoderBuffer) : list byte := mBuffer b.

Record HdlcEncoder : Type := {
  EncoderState : Type;
  Encoder_new : EncoderState;
  Encoder_Init : EncoderState -> EncoderBuffer -> otError * EncoderState * EncoderBuffer;
  Encoder_Encode : list byte -> Z -> EncoderState -> EncoderBuffer ->
                   otError * EncoderState * EncoderBuffer;
  Encoder_Finalize : EncoderState -> EncoderBuffer -> otError * EncoderState * EncoderBuffer
}.

(** What the decoder calls while it consumes a byte. *)
Inductive DecoderCallback : Type :=
| FrameHandler (frame : list byte)                   (* HandleHdlcFrame *)
| ErrorHandler (err : otError) (frame : list byte).  (* HandleHdlcError *)

(** [Hdlc::Decoder], by the interface the driver uses: a streaming decoder
    that consumes its input one byte at a time, updates its state, and on
    a byte that completes or breaks a frame calls the frame or the error
    handler once. *)
Record HdlcDecoder : Type := {
  DecoderState : Type;
  Decoder_byte : DecoderState -> byte -> DecoderState * option DecoderCallback
}.

(** What the listener ([Callbacks::HandleReceivedFrame], implemented by the
    layer above) does with the driver while it handles a frame: calls of
    the public methods of the manager it was built around. *)
Inductive ListenerCall : Set :=
| CallRead                                          (* Read() *)
| CallSendFrame (payload : list byte) (len : Z)     (* SendFrame(payload, len) *)
| CallDeinit                                        (* Deinit() *)
| CallInit (aRadioFile aRadioConfig : string).      (* Init(file, config) *)

Definition Callbacks : Type := list byte -> list ListenerCall.

(** ** The driver *)

Section Driver.

Variable cfg : BuildConfig.
Variable os : OS.
Variable enc : HdlcEncoder.
Variable dec : HdlcDecoder.

Record HdlcInterface : Type := {
  mSockFd : Z;
  mIsDecoding : bool;
  mHdlcDecoder : DecoderState dec
}.

Definition set_mSockFd (fd : Z) (st : HdlcInterface) : HdlcInterface :=
  {| mSockFd := fd; mIsDecoding := mIsDecoding st; mHdlcDecoder := mHdlcDecoder st |}.

Definition set_mIsDecoding (b : bool) (st : HdlcInterface) : HdlcInterface :=
  {| mSockFd := mSockFd st; mIsDecoding := b; mHdlcDecoder := mHdlcDecoder st |}.

Definition set_mHdlcDecoder (d : DecoderState dec) (st : HdlcInterface) : HdlcInterface :=
  {| mSockFd := mSockFd st; mIsDecoding := mIsDecoding st; mHdlcDecoder := d |}.

(** The constructor. *)
Definition HdlcInterface_new (d : DecoderState dec) : HdlcInterface :=
  {| mSockFd := -1; mIsDecoding := false; mHdlcDecoder := d |}.

(** [assert(e)] in front of the rest [k] of a function. *)
Definition assert {A : Type} (e : bool) (k : outcome A) : outcome A :=
  if NDEBUG cfg then k else if e then k else AssertFails.

(** *** HdlcInterface::SendFrame *)

Definition SendFrame (fuel : nat) (st : HdlcInterface) (payload : list byte)
    (len : Z) (w : World) : outcome (otError * World) :=
  let hdlcEncoder := Encoder_new enc in
  let encoderBuffer := EncoderBuffer_new cfg in
  let '(error, hdlcEncoder, encoderBuffer) :=
    Encoder_Init enc hdlcEncoder encoderBuffer in
  if negb (otError_eqb error OT_ERROR_NONE) then Returns (error, w) else
  let '(error, hdlcEncoder, encoderBuffer) :=
    Encoder_Encode enc payload len hdlcEncoder encoderBuffer in
  if negb (otError_eqb error OT_ERROR_NONE) then Returns (error, w) else
  let '(error, hdlcEncoder, encoderBuffer) :=
    Encoder_Finalize enc hdlcEncoder encoderBuffer in
  if negb (otError_eqb error OT_ERROR_NONE) then Returns (error, w) else
  Write cfg os fuel (mSockFd st) (GetBuffer encoderBuffer) (GetLength encoderBuffer) w.

(** *** HdlcInterface::Deinit *)

Definition Deinit (sw : HdlcInterface * World) : outcome (HdlcInterface * World) :=
  let '(st, w) := sw in
  assert (negb (mSockFd st =? -1))
    (let w1 := emit (EvClose (mSockFd st)) w in
     if negb (0 =? os_close os (mSockFd st)) then Returns (st, perror os "close NCP" w1)
     else
       let w2 := emit EvWait w1 in
       if negb (-1 =? os_wait os) then Returns (set_mSockFd (-1) st, w2)
       else Returns (st, perror os "wait NCP" w2)).

End Driver.

(** ** The line-parameter string

    [sscanf(aConfig, "%u%c%d", &speed, &parity, &cstopb)], after the C
    library: a directive that finds no input ends the scan, and what it and
    the directives after it would have set keeps its earlier value. *)

Definition isspace (c : ascii) : bool :=
  match c with
  | " " | "009" | "010" | "011" | "012" | "013" => true
  | _ => false
  end%char.

Definition digit_of (c : ascii) : option Z :=
  let n := Z.of_N (N_of_ascii c) in
  if (48 <=? n) && (n <=? 57) then Some (n - 48) else None.

Fixpoint skip_space (s : string) : string :=
  match s with
  | String c s' => if isspace c then skip_space s' else s
  | EmptyString => s
  end.

Fixpoint scan_digits (acc : Z) (s : string) : Z * string :=
  match s with
  | String c s' =>
      match digit_of c with
      | Some d => scan_digits (10 * acc + d) s'
      | None => (acc, s)
      end
  | EmptyString => (acc, s)
  end.

(** [%d] and [%u]: white space, an optional sign, one digit at least.  The
    result is the sign, the number the digits write and what is left of the
    input. *)
Definition scan_integer (s : string) : option (bool * Z * string) :=
  let s0 := skip_space s in
  let '(negative, s1) :=
    match s0 with
    | String "-"%char t => (true, t)
    | String "+"%char t => (false, t)
    | _ => (false, s0)
    end in
  match s1 with
  | String c _ =>
      match digit_of c with
      | Some _ =>
          let '(v, rest) := scan_digits 0 s1 in
          Some (negative, v, rest)
      | None => None
      end
  | EmptyString => None
  end.

Record LineConfig : Type := {
  speed : Z;
  parity : ascii;
  cstopb : Z
}.

(** The conversions of the C library, on a sign and a magnitude: [strtoul]
    gives an [unsigned long] and [strtol] a [long], both held at the limit
    of the type when the number is beyond it. *)
Definition strtoul (cfg : BuildConfig) (negative : bool) (v : Z) : Z :=
  let ULONG_MAX := 2 ^ LONG_BIT cfg - 1 in
  if ULONG_MAX <? v then ULONG_MAX
  else if negative then (- v) mod 2 ^ LONG_BIT cfg
  else v.

Definition strtol (cfg : BuildConfig) (negative : bool) (v : Z) : Z :=
  let LONG_MAX := 2 ^ (LONG_BIT cfg - 1) - 1 in
  let LONG_MIN := - 2 ^ (LONG_BIT cfg - 1) in
  if negative then (if - v <? LONG_MIN then LONG_MIN else - v)
  else (if LONG_MAX <? v then LONG_MAX else v).

(** The number of fields set, and the three variables after the call.  The
    number of [%u] is converted as by [strtoul], that of [%d] as by
    [strtol]; its low 32 bits are stored in the variable, which the code
    reads as an [int]. *)
Definition sscanf_u_c_d (cfg : BuildConfig) (aConfig : string) (init : LineConfig)
    : nat * LineConfig :=
  match scan_integer aConfig with
  | None => (0%nat, init)
  | Some (negative, v, s1) =>
      let speed' := int32_t (strtoul cfg negative v) in
      match s1 with
      | EmptyString =>
          (1%nat, {| speed := speed'; parity := parity init; cstopb := cstopb init |})
      | String c s2 =>
          match scan_integer s2 with
          | None => (2%nat, {| speed := speed'; parity := c; cstopb := cstopb init |})
          | Some (negative', v', _) =>
              (3%nat, {| speed := speed'; parity := c;
                         cstopb := int32_t (strtol cfg negative' v') |})
          end
      end
  end.

(** ** Provisioning: OpenFile, ForkPty, Init *)

Section Provisioning.

Variable cfg : BuildConfig.
Variable os : OS.
Variable dec : HdlcDecoder.

(** [switch (parity)] *)
Definition switch_parity (p : ascii) (cflag : Z) : outcome Z :=
  match p with
  | "N"%char => Returns cflag
  | "E"%char => Returns (Z.lor cflag (PARENB cfg))
  | "O"%char => Returns (Z.lor cflag (Z.lor (PARENB cfg) (PARODD cfg)))
  | _ => assert cfg false (Exits OT_EXIT_INVALID_ARGUMENTS)
  end.

(** [switch (cstopb)]; the conversion of [~CSTOPB] to [unsigned long]
    keeps every bit of the flag word. *)
Definition switch_cstopb (n : Z) (cflag : Z) : outcome Z :=
  match n with
  | 1 => Returns (Z.land cflag (Z.lnot (CSTOPB cfg)))
  | 2 => Returns (Z.lor cflag (CSTOPB cfg))
  | _ => assert cfg false (Exits OT_EXIT_INVALID_ARGUMENTS)
  end.

(** A [case] under [#ifdef B<rate>]. *)
Definition ifdef_B (rate : Z) : outcome Z :=
  if B_defined cfg rate then Returns (B cfg rate)
  else assert cfg false (Exits OT_EXIT_INVALID_ARGUMENTS).

(** [switch (speed)] *)
Definition switch_speed (s : Z) : outcome Z :=
  match s with
  | 9600 => Returns (B cfg 9600)
  | 19200 => Returns (B cfg 19200)
  | 38400 => Returns (B cfg 38400)
  | 57600 => Returns (B cfg 57600)
  | 115200 => Returns (B cfg 115200)
  | 230400 => ifdef_B 230400
  | 460800 => ifdef_B 460800
  | 500000 => ifdef_B 500000
  | 576000 => ifdef_B 576000
  | 921600 => ifdef_B 921600
  | 1000000 => ifdef_B 1000000
  | 1152000 => ifdef_B 1152000
  | 1500000 => ifdef_B 1500000
  | 2000000 => ifdef_B 2000000
  | 2500000 => ifdef_B 2500000
  | 3000000 => ifdef_B 3000000
  | 3500000 => ifdef_B 3500000
  | 4000000 => ifdef_B 4000000
  | _ => assert cfg false (Exits OT_EXIT_INVALID_ARGUMENTS)
  end.

(** The label [exit:] of [OpenFile]. *)
Definition OpenFile_exit (fd rv : Z) (w : World) : outcome (Z * World) :=
  if negb (rv =? 0) then Exits OT_EXIT_FAILURE else Returns (fd, w).

(** The [if (isatty(fd))] block once [sscanf] has run. *)
Definition program_line (fd : Z) (lc : LineConfig) (w : World) : outcome (Z * World) :=
  let cflag := Z.lor (Z.lor (Z.lor (CS8 cfg) (HUPCL cfg)) (CREAD cfg)) (CLOCAL cfg) in
  cflag <- switch_parity (parity lc) cflag ;;
  cflag <- switch_cstopb (cstopb lc) cflag ;;
  speed' <- switch_speed (speed lc) ;;
  let rv := os_cfsetspeed os speed' in
  if negb (rv =? 0) then OpenFile_exit fd rv (perror os "cfsetspeed" w) else
  let tios := {| c_cflag := cflag; c_speed := speed' |} in
  let w1 := emit (EvTcsetattr fd tios) w in
  let rv := os_tcsetattr os fd in
  if negb (rv =? 0) then OpenFile_exit fd rv (perror os "tcsetattr" w1) else
  let w2 := emit (EvTcflush fd) w1 in
  let rv := os_tcflush os fd in
  OpenFile_exit fd rv w2.

Definition default_line : LineConfig :=
  {| speed := 115200; parity := "N"; cstopb := 1 |}.

Definition OpenFile (aFile aConfig : string) (w : World) : outcome (Z * World) :=
  let fd := os_open os aFile in
  if fd =? -1 then OpenFile_exit fd 0 (perror os "open uart failed" w)
  else if os_isatty os fd then
    let rv := os_tcgetattr os fd in
    if negb (rv =? 0) then OpenFile_exit fd rv w
    else program_line fd (snd (sscanf_u_c_d cfg aConfig default_line)) w
  else OpenFile_exit fd 0 w.

(** The descriptors the child closes: [STDERR_FILENO + 1 .. rlim_cur - 1]. *)
Definition inherited_descriptors : list Z :=
  map (fun i => 3 + Z.of_nat i) (seq 0 (Z.to_nat (os_rlim_cur os - 3))).

Definition ForkPty (aCommand aArguments : string) (w : World) : outcome (Z * World) :=
  let pid := os_forkpty_pid os in
  let fd := os_forkpty_fd os in
  if negb (0 <=? pid) then Returns (fd, w)
  else if 0 =? pid then
    let rv := os_setenv os in
    if negb (rv =? 0) then Returns (fd, perror os "setenv failed" w) else
    let w1 := fold_left (fun w' i => emit (EvClose i) w') inherited_descriptors w in
    let cmd := ("exec " ++ aCommand ++ " " ++ aArguments)%string in
    let rv := Z.of_nat (String.length cmd) in
    if negb ((0 <? rv) && (rv <? 255)) then
      Returns (fd, otLogCritPlat "NCP file and configuration is too long!" w1)
    else if os_execl_fails os then Exits OT_EXIT_INVALID_ARGUMENTS
    else Execs (os_getenv_SHELL os) cmd
  else
    let rv := os_fcntl_getfl os fd in
    let rv := if negb (rv =? -1)
              then os_fcntl_setfl os fd (Z.lor rv (O_NONBLOCK cfg)) else rv in
    if rv =? -1 then
      Returns (-1, emit (EvClose fd) (perror os "set nonblock failed" w))
    else Returns (fd, w).

(** *** HdlcInterface::Init *)

Definition Init (st : HdlcInterface dec) (aRadioFile aRadioConfig : string)
    (w : World) : outcome (otError * HdlcInterface dec * World) :=
  if negb (mSockFd dec st =? -1) then Returns (OT_ERROR_ALREADY, st, w)
  else
    match os_stat os aRadioFile with
    | None => Returns (OT_ERROR_INVALID_ARGS, st, perror os "stat ncp file failed" w)
    | Some S_IFCHR =>
        '(fd, w1) <- OpenFile aRadioFile aRadioConfig w ;;
        let st1 := set_mSockFd dec fd st in
        if negb (fd =? -1) then Returns (OT_ERROR_NONE, st1, w1)
        else Returns (OT_ERROR_INVALID_ARGS, st1, w1)
    | Some S_IFREG =>
        if OPENTHREAD_CONFIG_POSIX_APP_ENABLE_PTY_DEVICE cfg then
          '(fd, w1) <- ForkPty aRadioFile aRadioConfig w ;;
          let st1 := set_mSockFd dec fd st in
          if negb (fd =? -1) then Returns (OT_ERROR_NONE, st1, w1)
          else Returns (OT_ERROR_INVALID_ARGS, st1, w1)
        else
          Returns (OT_ERROR_INVALID_ARGS, st, otLogCritPlat ("Radio file '" ++ aRadioFile ++ "' not supported") w)
    | Some S_IFOTHER =>
        Returns (OT_ERROR_INVALID_ARGS, st, otLogCritPlat ("Radio file '" ++ aRadioFile ++ "' not supported") w)
    end.

End Provisioning.

Arguments mSockFd {dec} _.
Arguments mIsDecoding {dec} _.
Arguments mHdlcDecoder {dec} _.

(** ** The read/decode cycle: Read, Decode and the handlers *)

(** Steps enough for the write loop of any frame, against a [write] that
    keeps to its contract. *)
Definition frame_fuel : nat := Z.to_nat (2 ^ 16).

Section ReadCycle.

Variable cfg : BuildConfig.
Variable os : OS.
Variable enc : HdlcEncoder.
Variable dec : HdlcDecoder.
Variable mCallbacks : Callbacks.

(** [Read] is reached again from inside itself when the listener calls
    it; [nested] is that inner [Read]. *)
Section Nested.

Variable nested : HdlcInterface dec * World -> outcome (HdlcInterface dec * World).

(** One call of the listener into the manager; what the method returns
    goes to the listener. *)
Definition listener_call (c : ListenerCall) (sw : HdlcInterface dec * World)
    : outcome (HdlcInterface dec * World) :=
  let '(st, w) := sw in
  match c with
  | CallRead => nested sw
  | CallSendFrame payload len =>
      '(_, w') <- SendFrame cfg os enc dec frame_fuel st payload len w ;;
      Returns (st, w')
  | CallDeinit => Deinit cfg os dec sw
  | CallInit aRadioFile aRadioConfig =>
      '(_, st', w') <- Init cfg os dec st aRadioFile aRadioConfig w ;;
      Returns (st', w')
  end.

Fixpoint run_listener (calls : list ListenerCall) (sw : HdlcInterface dec * World)
    : outcome (HdlcInterface dec * World) :=
  match calls with
  | [] => Returns sw
  | c :: calls' => sw' <- listener_call c sw ;; run_listener calls' sw'
  end.

(** [HandleHdlcFrame]: hands the frame to the listener. *)
Definition HandleHdlcFrame (frame : list byte) (sw : HdlcInterface dec * World)
    : outcome (HdlcInterface dec * World) :=
  let '(st, w) := sw in
  '(st', w') <- run_listener (mCallbacks frame)
                  (st, emit (EvFrameEnter frame (mIsDecoding st)) w) ;;
  Returns (st', emit (EvFrameLeave (mIsDecoding st')) w').

(** [HandleHdlcError]: a warning in the log. *)
Definition HandleHdlcError (err : otError) (frame : list byte)
    (sw : HdlcInterface dec * World) : outcome (HdlcInterface dec * World) :=
  let '(st, w) := sw in
  Returns (st, otLogWarnPlat "Error decoding hdlc frame" w).

(** [mHdlcDecoder.Decode(aBuffer, aLength)] *)
Fixpoint Decoder_Decode (bytes : list byte) (sw : HdlcInterface dec * World)
    : outcome (HdlcInterface dec * World) :=
  match bytes with
  | [] => Returns sw
  | b :: bytes' =>
      let '(st, w) := sw in
      let '(d, call) := Decoder_byte dec (mHdlcDecoder st) b in
      let sw1 := (set_mHdlcDecoder dec d st, w) in
      sw2 <- match call with
             | None => Returns sw1
             | Some (FrameHandler frame) => HandleHdlcFrame frame sw1
             | Some (ErrorHandler err frame) => HandleHdlcError err frame sw1
             end ;;
      Decoder_Decode bytes' sw2
  end.

Definition Decode (aBuffer : list byte) (len : Z) (sw : HdlcInterface dec * World)
    : outcome (HdlcInterface dec * World) :=
  let '(st, w) := sw in
  let bytes := firstn (Z.to_nat len) aBuffer in
  '(st', w') <- Decoder_Decode bytes
                  (set_mIsDecoding dec true st, emit (EvDecode bytes) w) ;;
  Returns (set_mIsDecoding dec false st', w').

Definition Read_body (sw : HdlcInterface dec * World)
    : outcome (HdlcInterface dec * World) :=
  let '(st, w) := sw in
  let '(rv, buffer, w1) := sys_read os (mSockFd st) (kMaxFrameSize cfg) w in
  w3 <- (if rv <? 0 then
           let w2 := perror os "HdlcInterface::Read()" w1 in
           if negb (w_errno w2 =? EAGAIN cfg) then Aborts else Returns w2
         else Returns w1) ;;
  if 0 <? rv then Decode buffer (uint16_t rv) (st, w3)
  else Returns (st, w3).

End Nested.

(** [Read()], the listener's calls being followed [depth] levels deep. *)
Fixpoint Read (depth : nat) (sw : HdlcInterface dec * World)
    : outcome (HdlcInterface dec * World) :=
  match depth with
  | O => OutOfFuel
  | S depth' => Read_body (Read depth') sw
  end.

End ReadCycle.

(** ** Reading a trace *)

(** The return values of the [write] calls of a trace, in order. *)
Fixpoint write_rvals (evs : list Event) : list Z :=
  match evs with
  | [] => []
  | EvWrite _ _ _ rv _ :: evs' => rv :: write_rvals evs'
  | _ :: evs' => write_rvals evs'
  end.

(** A run of [write] calls that covers [len] bytes from offset [off] with
    neither overlap nor hole: each call starts where the one before
    stopped and asks for what is left. *)
Fixpoint contiguous (off len : Z) (evs : list Event) : Prop :=
  match evs with
  | [] => len = 0
  | EvWrite _ o c rv _ :: evs' =>
      o = off /\ c = len /\ 0 < rv <= len /\ contiguous (off + rv) (len - rv) evs'
  | _ :: _ => False
  end.

Definition positive_write (e : Event) : Prop :=
  match e with
  | EvWrite _ _ _ rv _ => 0 < rv
  | _ => False
  end.

(** How the loop ended, read off the locals and the trace it leaves:
    after a run of positive writes, either nothing is left, or a negative
    write and its report, or a write of nothing. *)
Definition Write_ending (l l' : WriteLocals) (tail : list Event) : Prop :=
  (tail = [] /\ error l' = error l /\ aLength l' = 0)
  \/ (exists f o c rv e,
        rv < 0 /\
        tail = [EvWrite f o c rv e; EvPerror "HdlcInterface::Write"] /\
        error l' = OT_ERROR_FAILED /\ aLength l' <> 0)
  \/ (exists f o c e,
        tail = [EvWrite f o c 0 e] /\
        error l' = OT_ERROR_FAILED /\ aLength l' <> 0).

(** The re-entrancy discipline on a trace: the decoding flag reads [true]
    when a frame callback is entered and when it is left, and no [read] is
    issued while a callback is running ([inside] counts the callbacks
    entered and not yet left). *)
Fixpoint guarded (inside : nat) (evs : list Event) : bool :=
  match evs with
  | [] => true
  | EvFrameEnter _ d :: evs' => d && guarded (S inside) evs'
  | EvFrameLeave d :: evs' => d && guarded (Nat.pred inside) evs'
  | EvRead _ _ _ :: evs' => Nat.eqb inside 0 && guarded inside evs'
  | _ :: evs' => guarded inside evs'
  end.

(** What a run of the decoder leaves in the trace when no callback touches
    the driver: frame callbacks entered and left with the flag up, and
    warnings. *)
Definition callback_event (e : Event) : Prop :=
  match e with
  | EvFrameEnter _ true | EvFrameLeave true | EvLog _ => True
  | _ => False
  end.

(** The bytes a decoder has consumed take it from state [d] to this one. *)
Definition Decoder_feed (dec : HdlcDecoder) (d : DecoderState dec) (bytes : list byte)
    : DecoderState dec :=
  fold_left (fun d' b => fst (Decoder_byte dec d' b)) bytes d.

(** The rates of the [switch (speed)] table. *)
Definition mandatory_rates : list Z := [9600; 19200; 38400; 57600; 115200].

Definition optional_rates : list Z :=
  [230400; 460800; 500000; 576000; 921600; 1000000; 1152000; 1500000;
   2000000; 2500000; 3000000; 3500000; 4000000].

Definition supported_rates (cfg : BuildConfig) : list Z :=
  mandatory_rates ++ filter (B_defined cfg) optional_rates.

Definition all_rates : list Z := mandatory_rates ++ optional_rates.

(** A string of decimal digits, and the number it writes after [acc]. *)
Fixpoint all_digits (s : string) : bool :=
  match s with
  | EmptyString => true
  | String c s' =>
      match digit_of c with
      | Some _ => all_digits s'
      | None => false
      end
  end.

Fixpoint decimal_from (acc : Z) (s : string) : Z :=
  match s with
  | EmptyString => acc
  | String c s' =>
      match digit_of c with
      | Some d => decimal_from (10 * acc + d) s'
      | None => acc
      end
  end.

(** What may follow the digits of a number: nothing, or a character that
    is not a digit. *)
Definition ends_number (rest : string) : Prop :=
  match rest with
  | EmptyString => True
  | String c _ => digit_of c = None
  end.

(** A baud rate written out: one digit at least, and digits only. *)
Definition decimal_rate (s : string) : Prop :=
  s <> EmptyString /\ all_digits s = true.

(** The error a call returned, when it returned. *)
Definition returned_error {A : Type} (o : outcome (otError * A)) : option otError :=
  match o with
  | Returns (err, _) => Some err
  | _ => None
  end.

(** ** Fixtures for the examples *)

Module Fixture.

(** Linux values of the constants. *)
Definition linux_B (rate : Z) : Z :=
  match rate with
  | 9600 => 13 | 19200 => 14 | 38400 => 15
  | 57600 => 4097 | 115200 => 4098 | 230400 => 4099 | 460800 => 4100
  | 500000 => 4101 | 576000 => 4102 | 921600 => 4103 | 1000000 => 4104
  | 1152000 => 4105 | 1500000 => 4106 | 2000000 => 4107 | 2500000 => 4108
  | 3000000 => 4109 | 3500000 => 4110 | 4000000 => 4111
  | _ => 0
  end.

Definition linux (ndebug : bool) : BuildConfig :=
  {| NDEBUG := ndebug;
     OPENTHREAD_POSIX_VIRTUAL_TIME := false;
     OPENTHREAD_CONFIG_POSIX_APP_ENABLE_PTY_DEVICE := true;
     kMaxFrameSize := 2048;
     EAGAIN := 11;
     O_NONBLOCK := 2048;
     LONG_BIT := 64;
     CS8 := 48; HUPCL := 1024; CREAD := 128; CLOCAL := 2048;
     PARENB := 256; PARODD := 512; CSTOPB := 64;
     B_defined := fun _ => true;
     B := linux_B |}.

(** A platform whose <termios.h> stops at [B230400]. *)
Definition darwin : BuildConfig :=
  {| NDEBUG := true;
     OPENTHREAD_POSIX_VIRTUAL_TIME := false;
     OPENTHREAD_CONFIG_POSIX_APP_ENABLE_PTY_DEVICE := true;
     kMaxFrameSize := 2048;
     EAGAIN := 35;
     O_NONBLOCK := 4;
     LONG_BIT := 64;
     CS8 := 768; HUPCL := 16384; CREAD := 2048; CLOCAL := 32768;
     PARENB := 4096; PARODD := 8192; CSTOPB := 1024;
     B_defined := fun rate => rate =? 230400;
     B := fun rate => rate |}.

Definition EIO : Z := 5.

(** A channel that takes at most three bytes per [write], and a [read]
    that finds nothing; every other call succeeds on a terminal. *)
Definition os0 : OS :=
  {| os_write := fun _ _ count => {| rval := Z.min count 3; errno := 0 |};
     os_read := fun _ _ _ => {| r_rval := -1; r_errno := 11; r_buffer := [] |};
     os_close := fun _ => 0;
     os_wait := 0;
     os_stat := fun _ => Some S_IFCHR;
     os_open := fun _ => 7;
     os_isatty := fun _ => true;
     os_tcgetattr := fun _ => 0;
     os_cfsetspeed := fun _ => 0;
     os_tcsetattr := fun _ => 0;
     os_tcflush := fun _ => 0;
     os_forkpty_pid := 4242;
     os_forkpty_fd := 8;
     os_setenv := 0;
     os_execl_fails := false;
     os_getenv_SHELL := "/bin/sh";
     os_rlim_cur := 16;
     os_fcntl_getfl := fun _ => 2;
     os_fcntl_setfl := fun _ _ => 0;
     os_perror := fun e => e |}.

Definition with_write (f : nat -> Z -> Z -> SysResult) (o : OS) : OS :=
  {| os_write := f; os_read := os_read o; os_close := os_close o;
     os_wait := os_wait o; os_stat := os_stat o; os_open := os_open o;
     os_isatty := os_isatty o; os_tcgetattr := os_tcgetattr o;
     os_cfsetspeed := os_cfsetspeed o; os_tcsetattr := os_tcsetattr o;
     os_tcflush := os_tcflush o; os_forkpty_pid := os_forkpty_pid o;
     os_forkpty_fd := os_forkpty_fd o; os_setenv := os_setenv o;
     os_execl_fails := os_execl_fails o; os_getenv_SHELL := os_getenv_SHELL o;
     os_rlim_cur := os_rlim_cur o; os_fcntl_getfl := os_fcntl_getfl o;
     os_fcntl_setfl := os_fcntl_setfl o; os_perror := os_perror o |}.

Definition with_read (f : nat -> Z -> Z -> ReadResult) (o : OS) : OS :=
  {| os_write := os_write o; os_read := f; os_close := os_close o;
     os_wait := os_wait o; os_stat := os_stat o; os_open := os_open o;
     os_isatty := os_isatty o; os_tcgetattr := os_tcgetattr o;
     os_cfsetspeed := os_cfsetspeed o; os_tcsetattr := os_tcsetattr o;
     os_tcflush := os_tcflush o; os_forkpty_pid := os_forkpty_pid o;
     os_forkpty_fd := os_forkpty_fd o; os_setenv := os_setenv o;
     os_execl_fails := os_execl_fails o; os_getenv_SHELL := os_getenv_SHELL o;
     os_rlim_cur := os_rlim_cur o; os_fcntl_getfl := os_fcntl_getfl o;
     os_fcntl_setfl := os_fcntl_setfl o; os_perror := os_perror o |}.

Definition with_open (f : string -> Z) (o : OS) : OS :=
  {| os_write := os_write o; os_read := os_read o; os_close := os_close o;
     os_wait := os_wait o; os_stat := os_stat o; os_open := f;
     os_isatty := os_isatty o; os_tcgetattr := os_tcgetattr o;
     os_cfsetspeed := os_cfsetspeed o; os_tcsetattr := os_tcsetattr o;
     os_tcflush := os_tcflush o; os_forkpty_pid := os_forkpty_pid o;
     os_forkpty_fd := os_forkpty_fd o; os_setenv := os_setenv o;
     os_execl_fails := os_execl_fails o; os_getenv_SHELL := os_getenv_SHELL o;
     os_rlim_cur := os_rlim_cur o; os_fcntl_getfl := os_fcntl_getfl o;
     os_fcntl_setfl := os_fcntl_setfl o; os_perror := os_perror o |}.

Definition with_wait (rv : Z) (o : OS) : OS :=
  {| os_write := os_write o; os_read := os_read o; os_close := os_close o;
     os_wait := rv; os_stat := os_stat o; os_open := os_open o;
     os_isatty := os_isatty o; os_tcgetattr := os_tcgetattr o;
     os_cfsetspeed := os_cfsetspeed o; os_tcsetattr := os_tcsetattr o;
     os_tcflush := os_tcflush o; os_forkpty_pid := os_forkpty_pid o;
     os_forkpty_fd := os_forkpty_fd o; os_setenv := os_setenv o;
     os_execl_fails := os_execl_fails o; os_getenv_SHELL := os_getenv_SHELL o;
     os_rlim_cur := os_rlim_cur o; os_fcntl_getfl := os_fcntl_getfl o;
     os_fcntl_setfl := os_fcntl_setfl o; os_perror := os_perror o |}.

(** [forkpty] returns [pid] and leaves [fd] in the descriptor. *)
Definition with_forkpty (pid fd : Z) (o : OS) : OS :=
  {| os_write := os_write o; os_read := os_read o; os_close := os_close o;
     os_wait := os_wait o; os_stat := os_stat o; os_open := os_open o;
     os_isatty := os_isatty o; os_tcgetattr := os_tcgetattr o;
     os_cfsetspeed := os_cfsetspeed o; os_tcsetattr := os_tcsetattr o;
     os_tcflush := os_tcflush o; os_forkpty_pid := pid;
     os_forkpty_fd := fd; os_setenv := os_setenv o;
     os_execl_fails := os_execl_fails o; os_getenv_SHELL := os_getenv_SHELL o;
     os_rlim_cur := os_rlim_cur o; os_fcntl_getfl := os_fcntl_getfl o;
     os_fcntl_setfl := os_fcntl_setfl o; os_perror := os_perror o |}.

(** [perror] leaves [e] in [errno]. *)
Definition with_perror (e : Z) (o : OS) : OS :=
  {| os_write := os_write o; os_read := os_read o; os_close := os_close o;
     os_wait := os_wait o; os_stat := os_stat o; os_open := os_open o;
     os_isatty := os_isatty o; os_tcgetattr := os_tcgetattr o;
     os_cfsetspeed := os_cfsetspeed o; os_tcsetattr := os_tcsetattr o;
     os_tcflush := os_tcflush o; os_forkpty_pid := os_forkpty_pid o;
     os_forkpty_fd := os_forkpty_fd o; os_setenv := os_setenv o;
     os_execl_fails := os_execl_fails o; os_getenv_SHELL := os_getenv_SHELL o;
     os_rlim_cur := os_rlim_cur o; os_fcntl_getfl := os_fcntl_getfl o;
     os_fcntl_setfl := os_fcntl_setfl o; os_perror := fun _ => e |}.

Definition EINVAL : Z := 22.

(** The first [write] fails with [errno] [e]. *)
Definition os_write_fails (e : Z) : OS :=
  with_write (fun _ _ _ => {| rval := -1; errno := e |}) os0.

(** A stand-in codec, enough to run the driver: a frame is its bytes
    between two flag bytes, with neither stuffing nor checksum. *)
Definition flag : byte := "~"%byte.

Definition put (bs : list byte) (b : EncoderBuffer) : otError * unit * EncoderBuffer :=
  let n := Z.of_nat (List.length bs) in
  if mRemainingLength b <? n then (OT_ERROR_NO_BUFS, tt, b)
  else
    let at_ := Z.to_nat (mWritePointer b) in
    (OT_ERROR_NONE, tt,
     {| mBuffer := (firstn at_ (mBuffer b) ++ bs
                    ++ skipn (at_ + List.length bs) (mBuffer b))%list;
        mWritePointer := mWritePointer b + n;
        mRemainingLength := mRemainingLength b - n |}).

Definition enc0 : HdlcEncoder :=
  {| EncoderState := unit;
     Encoder_new := tt;
     Encoder_Init := fun _ b => put [flag] b;
     Encoder_Encode := fun payload len _ b => put (firstn (Z.to_nat len) payload) b;
     Encoder_Finalize := fun _ b => put [flag] b |}.

Definition dec0 : HdlcDecoder :=
  {| DecoderState := list byte;
     Decoder_byte := fun acc b =>
       if Byte.eqb b flag then ([], Some (FrameHandler acc))
       else ((acc ++ [b])%list, None) |}.

Definition payload5 : list byte := ["001"; "002"; "003"; "004"; "005"]%byte.

Definition w0 : World :=
  {| w_errno := 0; w_nwrite := 0; w_nread := 0; w_tx := []; w_trace := [] |}.

(** A manager with descriptor [fd]. *)
Definition manager (fd : Z) : HdlcInterface dec0 :=
  set_mSockFd dec0 fd (HdlcInterface_new dec0 []).

(** A first [read] of a frame of one byte and its closing flag, and a
    byte more at every later [read]. *)
Definition os_two_reads : OS :=
  with_read (fun k _ _ =>
               match k with
               | O => {| r_rval := 2; r_errno := 0; r_buffer := ["001"; "~"]%byte |}
               | _ => {| r_rval := 1; r_errno := 0; r_buffer := ["002"]%byte |}
               end) os0.

(** One [read] that brings two frames and the start of a third. *)
Definition os_frames : OS :=
  with_read (fun _ _ _ =>
               {| r_rval := 6; r_errno := 0;
                  r_buffer := ["001"; "~"; "002"; "003"; "~"; "004"]%byte |}) os0.

(** A frame of three bytes that comes in two reads. *)
Definition os_split_frame : OS :=
  with_read (fun k _ _ =>
               match k with
               | O => {| r_rval := 2; r_errno := 0; r_buffer := ["001"; "002"]%byte |}
               | _ => {| r_rval := 2; r_errno := 0; r_buffer := ["003"; "~"]%byte |}
               end) os0.

(** A [read] that fails with [errno] [e]. *)
Definition os_read_fails (e : Z) : OS :=
  with_read (fun _ _ _ => {| r_rval := -1; r_errno := e; r_buffer := [] |}) os0.

(** A listener that leaves the driver alone, and one that calls [Read]
    from every frame it is handed. *)
Definition quiet : Callbacks := fun _ => [].
Definition reentrant : Callbacks := fun _ => [CallRead].

End Fixture.

(** ** Reading a decoder run *)

(** The frames a decoder hands to its frame handler while it consumes
    [bytes] from state [d], in order. *)
Fixpoint Decoder_frames (dec : HdlcDecoder) (d : DecoderState dec) (bytes : list byte)
    : list (list byte) :=
  match bytes with
  | [] => []
  | b :: bytes' =>
      let '(d', call) := Decoder_byte dec d b in
      match call with
      | Some (FrameHandler frame) => frame :: Decoder_frames dec d' bytes'
      | _ => Decoder_frames dec d' bytes'
      end
  end.

(** The frames the listener was handed, by a trace. *)
Fixpoint frames_entered (evs : list Event) : list (list byte) :=
  match evs with
  | [] => []
  | EvFrameEnter frame _ :: evs' => frame :: frames_entered evs'
  | _ :: evs' => frames_entered evs'
  end.

(** What a read/decode cycle leaves alone: the descriptor of the manager
    and the transmit side of the channel; the trace only grows. *)
Definition receive_only {dec : HdlcDecoder}
    (before after : HdlcInterface dec * World) : Prop :=
  mSockFd (fst after) = mSockFd (fst before)
  /\ w_tx (snd after) = w_tx (snd before)
  /\ w_nwrite (snd after) = w_nwrite (snd before)
  /\ exists evs, w_trace (snd after) = (w_trace (snd before) ++ evs)%list.

(** A listener whose callbacks call nothing but [Read]. *)
Definition reads_only (cb : Callbacks) : Prop :=
  forall frame c, In c (cb frame) -> c = CallRead.

(** The control-mode word before the [switch] statements. *)
Definition raw_cflag (cfg : BuildConfig) : Z :=
  Z.lor (Z.lor (Z.lor (CS8 cfg) (HUPCL cfg)) (CREAD cfg)) (CLOCAL cfg).

(** Two flag words share no bit. *)
Definition disjoint_bits (a b : Z) : Prop := Z.land a b = 0.

(** * Properties *)

(** ** Arithmetic and lists *)

Lemma uint16_t_small (z : Z) : 0 <= z < 2 ^ 16 -> uint16_t z = z.
Proof. intros H. unfold uint16_t. now apply Z.mod_small. Qed.

Lemma firstn_add_skipn {A : Type} (a b : nat) (l : list A) :
  firstn (a + b) l = (firstn a l ++ firstn b (skipn a l))%list.
Proof.
  revert l. induction a as [|a IH]; intros l; [reflexivity|].
  destruct l as [|x l]; simpl.
  - now rewrite firstn_nil.
  - now rewrite IH.
Qed.

Lemma skipn_add {A : Type} (a b : nat) (l : list A) :
  skipn (a + b) l = skipn b (skipn a l).
Proof.
  revert l. induction a as [|a IH]; intros l; [reflexivity|].
  destruct l as [|x l]; simpl.
  - now rewrite skipn_nil.
  - apply IH.
Qed.

(** ** The write loop *)

(** A short write moves the pointer and the remaining length by the count
    returned, without wrap-around. *)
Lemma Write_body_short_write (rv : Z) (l : WriteLocals) :
  0 < rv <= aLength l -> aLength l < 2 ^ 16 ->
  Write_body rv l =
  ({| error := error l; aFrame := aFrame l + rv; aLength := aLength l - rv |}, true).
Proof.
  intros Hrv Hlen. unfold Write_body.
  destruct (0 <? rv) eqn:E; [|apply Z.ltb_ge in E; lia].
  rewrite (uint16_t_small rv) by lia.
  now rewrite uint16_t_small by lia.
Qed.

Lemma Write_body_exit (rv : Z) (l : WriteLocals) :
  rv <= 0 ->
  Write_body rv l =
  ({| error := OT_ERROR_FAILED; aFrame := aFrame l; aLength := aLength l |}, false).
Proof.
  intros Hrv. unfold Write_body.
  destruct (0 <? rv) eqn:E; [apply Z.ltb_lt in E; lia|].
  now destruct (rv <? 0).
Qed.

Section WriteLoop.

Variable os : OS.
Variable fd : Z.
Variable buf : list byte.

(** With a channel that always takes something, the loop ends in success
    having handed over the bytes [aFrame .. aFrame + aLength), once each
    and in order. *)
Lemma Write_loop_short_writes :
  (forall k count, 0 < count -> 0 < rval (os_write os k fd count) <= count) ->
  forall fuel l w,
    0 <= aFrame l -> 0 <= aLength l < 2 ^ 16 ->
    (Z.to_nat (aLength l) < fuel)%nat ->
    exists w' evs,
      Write_loop os fuel fd buf l w =
        Returns ({| error := error l; aFrame := aFrame l + aLength l; aLength := 0 |}, w')
      /\ w_tx w' = (w_tx w ++ firstn (Z.to_nat (aLength l))
                                (skipn (Z.to_nat (aFrame l)) buf))%list
      /\ w_trace w' = (w_trace w ++ evs)%list
      /\ contiguous (aFrame l) (aLength l) evs.
Proof.
  intros Hos. induction fuel as [|fuel IH]; intros l w Hoff Hlen Hfuel; [lia|].
  cbn [Write_loop]. destruct (aLength l =? 0) eqn:E0.
  - apply Z.eqb_eq in E0. exists w, []. rewrite E0, Z.add_0_r. simpl.
    rewrite !app_nil_r. destruct l; simpl in *; subst. auto.
  - apply Z.eqb_neq in E0. unfold sys_write.
    set (r := os_write os (w_nwrite w) fd (aLength l)).
    assert (Hr : 0 < rval r <= aLength l) by (apply Hos; lia).
    destruct (0 <? rval r) eqn:Epos; [|apply Z.ltb_ge in Epos; lia].
    destruct (rval r <? 0) eqn:Eneg; [apply Z.ltb_lt in Eneg; lia|].
    rewrite Write_body_short_write by lia.
    match goal with
    | |- context [Write_loop os fuel fd buf ?l1 ?w1] =>
        destruct (IH l1 w1) as (w' & evs & Hrun & Htx & Htr & Hc)
    end; cbn [aFrame aLength error]; try lia.
    exists w', (EvWrite fd (aFrame l) (aLength l) (rval r) (errno r) :: evs).
    rewrite Hrun. cbn [aFrame aLength error w_tx w_trace] in *.
    repeat split; try lia.
    + replace (aFrame l + rval r + (aLength l - rval r))
        with (aFrame l + aLength l) by lia.
      reflexivity.
    + rewrite Htx, <- app_assoc. f_equal.
      replace (Z.to_nat (aLength l))
        with (Z.to_nat (rval r) + Z.to_nat (aLength l - rval r))%nat by lia.
      rewrite firstn_add_skipn. f_equal. f_equal.
      rewrite <- skipn_add. f_equal. lia.
    + now rewrite Htr, <- app_assoc.
    + exact Hc.
Qed.

(** With a channel that never reports more than it was asked for, the
    loop comes to an end. *)
Lemma Write_loop_returns :
  (forall k count, 0 < count -> rval (os_write os k fd count) <= count) ->
  forall fuel l w,
    0 <= aLength l < 2 ^ 16 ->
    (Z.to_nat (aLength l) < fuel)%nat ->
    exists r, Write_loop os fuel fd buf l w = Returns r.
Proof.
  intros Hos. induction fuel as [|fuel IH]; intros l w Hlen Hfuel; [lia|].
  cbn [Write_loop]. destruct (aLength l =? 0) eqn:E0; [eauto|].
  apply Z.eqb_neq in E0. unfold sys_write.
  set (r := os_write os (w_nwrite w) fd (aLength l)).
  assert (Hr : rval r <= aLength l) by (apply Hos; lia).
  destruct (0 <? rval r) eqn:Epos.
  - apply Z.ltb_lt in Epos. rewrite Write_body_short_write by lia.
    apply IH; cbn [aLength]; lia.
  - apply Z.ltb_ge in Epos. rewrite Write_body_exit by lia. eauto.
Qed.

Lemma Write_loop_trace :
  forall fuel l w l' w',
    Write_loop os fuel fd buf l w = Returns (l', w') ->
    exists good tail,
      w_trace w' = (w_trace w ++ good ++ tail)%list
      /\ Forall positive_write good
      /\ Write_ending l l' tail.
Proof.
  induction fuel as [|fuel IH]; intros l w l' w' Hrun; [discriminate|].
  cbn [Write_loop] in Hrun. destruct (aLength l =? 0) eqn:E0.
  - injection Hrun as <- <-. apply Z.eqb_eq in E0.
    exists [], []. rewrite !app_nil_r. repeat split; auto.
    left. auto.
  - apply Z.eqb_neq in E0. unfold sys_write in Hrun.
    set (r := os_write os (w_nwrite w) fd (aLength l)) in *.
    destruct (0 <? rval r) eqn:Epos.
    + apply Z.ltb_lt in Epos.
      destruct (rval r <? 0) eqn:Eneg; [apply Z.ltb_lt in Eneg; lia|].
      unfold Write_body in Hrun. apply Z.ltb_lt in Epos. rewrite Epos in Hrun.
      apply IH in Hrun. destruct Hrun as (good & tail & Htr & Hgood & Hend).
      cbn [w_trace error aLength] in *.
      exists (EvWrite fd (aFrame l) (aLength l) (rval r) (errno r) :: good), tail.
      repeat split.
      * rewrite Htr, <- app_assoc. reflexivity.
      * constructor; [apply Z.ltb_lt in Epos; exact Epos | exact Hgood].
      * exact Hend.
    + apply Z.ltb_ge in Epos. rewrite Write_body_exit in Hrun by lia.
      destruct (rval r <? 0) eqn:Eneg; injection Hrun as <- <-.
      * apply Z.ltb_lt in Eneg. exists [].
        exists [EvWrite fd (aFrame l) (aLength l) (rval r) (errno r);
                EvPerror "HdlcInterface::Write"].
        cbn. rewrite <- app_assoc. repeat split; auto.
        right; left. exists fd, (aFrame l), (aLength l), (rval r), (errno r). auto.
      * apply Z.ltb_ge in Eneg. assert (Hz : rval r = 0) by lia.
        exists [], [EvWrite fd (aFrame l) (aLength l) 0 (errno r)].
        cbn. rewrite Hz. repeat split; auto.
        right; right. exists fd, (aFrame l), (aLength l), (errno r). auto.
Qed.

End WriteLoop.

Lemma Write_locals_trace (cfg : BuildConfig) (os : OS) (fuel : nat) (fd : Z)
    (buf : list byte) (len : Z) (w : World) (l' : WriteLocals) (w' : World) :
  OPENTHREAD_POSIX_VIRTUAL_TIME cfg = false ->
  Write_locals cfg os fuel fd buf len w = Returns (l', w') ->
  exists good tail,
    w_trace w' = (w_trace w ++ good ++ tail)%list
    /\ Forall positive_write good
    /\ Write_ending {| error := OT_ERROR_NONE; aFrame := 0; aLength := len |} l' tail.
Proof.
  intros Hvt Hrun. unfold Write_locals in Hrun. rewrite Hvt in Hrun.
  eapply Write_loop_trace; eauto.
Qed.

(** A write that did not take anything, found in the trace of a [Write],
    is where that trace ends, and [Write] reports [OT_ERROR_FAILED]. *)
Lemma Write_stops_at_failed_write (cfg : BuildConfig) (os : OS) (fuel : nat)
    (fd : Z) (buf : list byte) (len : Z) (w w' : World) (err : otError)
    (evs : list Event) (f o c rv e : Z) :
  Write cfg os fuel fd buf len w = Returns (err, w') ->
  w_trace w' = (w_trace w ++ evs)%list ->
  In (EvWrite f o c rv e) evs -> rv <= 0 ->
  err = OT_ERROR_FAILED /\
  exists before,
    Forall positive_write before /\
    evs = (before ++ EvWrite f o c rv e ::
             (if rv <? 0 then [EvPerror "HdlcInterface::Write"] else []))%list.
Proof.
  intros Hrun Htr Hin Hrv. unfold Write in Hrun.
  destruct (Write_locals cfg os fuel fd buf len w) as [[l1 w1]| | | | |] eqn:Hl;
    try discriminate.
  cbn in Hrun. injection Hrun as <- <-.
  destruct (OPENTHREAD_POSIX_VIRTUAL_TIME cfg) eqn:Hvt.
  - unfold Write_locals in Hl. rewrite Hvt in Hl. injection Hl as <- <-.
    cbn in Htr. apply app_inv_head in Htr. subst evs.
    destruct Hin as [Hin|[]]. discriminate.
  - apply Write_locals_trace in Hl; [|exact Hvt].
    destruct Hl as (good & tail & Htr' & Hgood & Hend).
    rewrite Htr in Htr'. apply app_inv_head in Htr'. subst evs.
    assert (Hnot : ~ In (EvWrite f o c rv e) good).
    { intros Hg. rewrite Forall_forall in Hgood. apply Hgood in Hg. cbn in Hg. lia. }
    apply in_app_or in Hin. destruct Hin as [Hin|Hin]; [contradiction|].
    destruct Hend as [(-> & _)|[(f' & o' & c' & rv' & e' & Hneg & -> & Herr & _)
                               |(f' & o' & c' & e' & -> & Herr & _)]].
    + destruct Hin.
    + destruct Hin as [Heq|[Heq|[]]]; [|discriminate].
      injection Heq as -> -> -> -> ->. split; [exact Herr|].
      exists good. split; [exact Hgood|].
      destruct (rv <? 0) eqn:E; [reflexivity|apply Z.ltb_ge in E; lia].
    + destruct Hin as [Heq|[]]. injection Heq as -> -> -> <- ->.
      split; [exact Herr|]. exists good. split; [exact Hgood|reflexivity].
Qed.

(** C1.  Partial writes: against a channel that takes a positive number of
    bytes, never more than asked, at every call, [Write] sends every byte
    of the frame once, in order, without repeat or hole.  Each turn of the
    loop moves the pointer forward by the count returned and the remaining
    length down by the same count; the calls cover the frame back to back;
    the loop ends in success with nothing left; and whatever the channel
    answers, it ends in success exactly when nothing is left. *)
Theorem Write_sends_every_byte_once
    (cfg : BuildConfig) (os : OS) (fd : Z) (buf : list byte) (len : Z)
    (w : World) (fuel : nat) :
  OPENTHREAD_POSIX_VIRTUAL_TIME cfg = false ->
  0 <= len < 2 ^ 16 ->
  (forall k count, 0 < count -> 0 < rval (os_write os k fd count) <= count) ->
  (Z.to_nat len < fuel)%nat ->
  (forall rv l, 0 < rv <= aLength l -> aLength l < 2 ^ 16 ->
     Write_body rv l =
     ({| error := error l; aFrame := aFrame l + rv; aLength := aLength l - rv |}, true))
  /\ (exists w' evs,
        Write_locals cfg os fuel fd buf len w =
          Returns ({| error := OT_ERROR_NONE; aFrame := len; aLength := 0 |}, w')
        /\ Write cfg os fuel fd buf len w = Returns (OT_ERROR_NONE, w')
        /\ w_tx w' = (w_tx w ++ firstn (Z.to_nat len) buf)%list
        /\ w_trace w' = (w_trace w ++ evs)%list
        /\ contiguous 0 len evs)
  /\ (forall os' fuel' w0 l' w',
        Write_locals cfg os' fuel' fd buf len w0 = Returns (l', w') ->
        (error l' = OT_ERROR_NONE <-> aLength l' = 0)).
Proof.
  intros Hvt Hlen Hos Hfuel. split; [|split].
  - intros rv l. apply Write_body_short_write.
  - destruct (Write_loop_short_writes os fd buf Hos fuel
                {| error := OT_ERROR_NONE; aFrame := 0; aLength := len |} w)
      as (w' & evs & Hrun & Htx & Htr & Hc); cbn [aFrame aLength]; try lia.
    exists w', evs. cbn [aFrame aLength error] in *.
    unfold Write, Write_locals. rewrite Hvt, Hrun. cbn.
    repeat split; auto.
  - intros os' fuel' w0 l' w' Hrun.
    apply Write_locals_trace in Hrun; [|exact Hvt].
    destruct Hrun as (_ & tail & _ & _ & Hend).
    destruct Hend as [(_ & He & Hz)|[(f & o & c & rv & e & _ & _ & He & Hnz)
                                    |(f & o & c & e & _ & He & Hnz)]];
      cbn in He; rewrite He; split; intros; try discriminate; try contradiction; auto.
Qed.

(** The frame of five bytes goes out in writes of three and two. *)
Lemma Write_sends_every_byte_once_witness :
  exists w',
    Write (Fixture.linux true) Fixture.os0 6 7
      ["001"; "002"; "003"; "004"; "005"]%byte 5 Fixture.w0
    = Returns (OT_ERROR_NONE, w')
    /\ w_tx w' = ["001"; "002"; "003"; "004"; "005"]%byte.
Proof.
  destruct (Write_sends_every_byte_once (Fixture.linux true) Fixture.os0 7
              ["001"; "002"; "003"; "004"; "005"]%byte 5 Fixture.w0 6)
    as (_ & (w' & evs & _ & Hrun & Htx & _) & _).
  - reflexivity.
  - lia.
  - intros k count Hc. cbn. lia.
  - cbn. lia.
  - exists w'. split; [exact Hrun|exact Htx].
Defined.

(** C10.  A [write] that returns zero makes [Write] give up at once with
    [OT_ERROR_FAILED]: the zero write is the last call of the run, after
    positive writes only.  The loop comes to an end for every sequence of
    answers of a [write] that reports no more than it was asked for: a turn
    of the body either brings the remaining length strictly down or leaves
    the loop with [OT_ERROR_FAILED]. *)
Theorem Write_zero_fails_and_terminates
    (cfg : BuildConfig) (os : OS) (fd : Z) (buf : list byte) (len : Z) :
  (forall fuel w err w' evs f o c e,
     Write cfg os fuel fd buf len w = Returns (err, w') ->
     w_trace w' = (w_trace w ++ evs)%list ->
     In (EvWrite f o c 0 e) evs ->
     err = OT_ERROR_FAILED /\
     exists before,
       Forall positive_write before /\ evs = (before ++ [EvWrite f o c 0 e])%list)
  /\ ((forall k count, 0 < count -> rval (os_write os k fd count) <= count) ->
      0 <= len < 2 ^ 16 ->
      forall fuel w, (Z.to_nat len < fuel)%nat ->
        exists r, Write cfg os fuel fd buf len w = Returns r)
  /\ (forall rv l, 0 < aLength l < 2 ^ 16 -> rv <= aLength l ->
        (0 < rv /\ snd (Write_body rv l) = true
         /\ 0 <= aLength (fst (Write_body rv l)) < aLength l)
        \/ (rv <= 0 /\ snd (Write_body rv l) = false
            /\ error (fst (Write_body rv l)) = OT_ERROR_FAILED
            /\ aLength (fst (Write_body rv l)) = aLength l)).
Proof.
  split; [|split].
  - intros fuel w err w' evs f o c e Hrun Htr Hin.
    destruct (Write_stops_at_failed_write cfg os fuel fd buf len w w' err evs
                f o c 0 e Hrun Htr Hin) as (Herr & before & Hb & Hevs); [lia|].
    split; [exact Herr|]. exists before. split; [exact Hb|exact Hevs].
  - intros Hos Hlen fuel w Hfuel. unfold Write, Write_locals.
    destruct (OPENTHREAD_POSIX_VIRTUAL_TIME cfg).
    + cbn. eauto.
    + destruct (Write_loop_returns os fd buf Hos fuel
                  {| error := OT_ERROR_NONE; aFrame := 0; aLength := len |} w)
        as ([l' w'] & Hrun); cbn [aLength]; try lia.
      rewrite Hrun. cbn. eauto.
  - intros rv l Hlen Hrv. destruct (Z.lt_ge_cases 0 rv) as [Hpos|Hnpos].
    + left. rewrite Write_body_short_write by lia. cbn. repeat split; lia.
    + right. rewrite Write_body_exit by lia. cbn. repeat split; auto.
Qed.

(** A channel that takes three bytes and then nothing. *)
Lemma Write_zero_fails_and_terminates_witness :
  let os := Fixture.with_write
              (fun k _ count => {| rval := if Nat.eqb k 0 then Z.min count 3 else 0;
                                   errno := 0 |}) Fixture.os0 in
  Write (Fixture.linux true) os 6 7 Fixture.payload5 5 Fixture.w0
  = Returns (OT_ERROR_FAILED,
             {| w_errno := 0; w_nwrite := 2; w_nread := 0;
                w_tx := ["001"; "002"; "003"]%byte;
                w_trace := [EvWrite 7 0 5 3 0; EvWrite 7 3 2 0 0] |})
  /\ exists r, Write (Fixture.linux true) os 6 7 Fixture.payload5 5 Fixture.w0 = Returns r.
Proof.
  intros os. split; [reflexivity|].
  destruct (Write_zero_fails_and_terminates (Fixture.linux true) os 7
              Fixture.payload5 5) as (_ & Hterm & _).
  apply Hterm.
  - intros k count Hc. cbn. destruct (Nat.eqb k 0); lia.
  - lia.
  - cbn. lia.
Defined.

(** C2, as stated, fails: a [write] that fails for another reason than
    would-block ([EIO]) gives the same [OT_ERROR_FAILED] as one that would
    block ([EAGAIN]). *)
Lemma SendFrame_write_failures_not_distinguished :
  let run e := SendFrame (Fixture.linux true) (Fixture.os_write_fails e)
                 Fixture.enc0 Fixture.dec0 8 (Fixture.manager 7)
                 Fixture.payload5 5 Fixture.w0 in
  Fixture.EIO <> EAGAIN (Fixture.linux true)
  /\ w_trace (Fixture.w0) = []
  /\ (exists w', run (EAGAIN (Fixture.linux true)) = Returns (OT_ERROR_FAILED, w')
                 /\ w_trace w' = [EvWrite 7 0 7 (-1) (EAGAIN (Fixture.linux true));
                                  EvPerror "HdlcInterface::Write"])
  /\ (exists w', run Fixture.EIO = Returns (OT_ERROR_FAILED, w')
                 /\ w_trace w' = [EvWrite 7 0 7 (-1) Fixture.EIO;
                                  EvPerror "HdlcInterface::Write"])
  /\ returned_error (run Fixture.EIO) = returned_error (run (EAGAIN (Fixture.linux true))).
Proof.
  intros run. split; [discriminate|]. split; [reflexivity|].
  split; [|split]; [eexists; split; reflexivity ..|reflexivity].
Qed.

(** C2, amended.  [SendFrame] delivers [OT_ERROR_FAILED] for a negative
    [write], would-block or not.  Against a [write] that reports no more
    than it was asked for, [SendFrame] always returns; whenever one of the
    [write] calls it issued returned a negative value, whatever the [errno],
    the result is [OT_ERROR_FAILED] and the rest of the frame is given up:
    that [write] is its last, after positive writes only, and only the
    report of the error follows.  In particular, when the first [write] of
    an encoded frame is negative, [SendFrame] returns [OT_ERROR_FAILED]
    after that one call. *)
Theorem SendFrame_negative_write_is_Failed
    (cfg : BuildConfig) (os : OS) (enc : HdlcEncoder) (dec : HdlcDecoder)
    (fuel : nat) (st : HdlcInterface dec) (payload : list byte) (len : Z) (w : World) :
  ((forall k count, 0 < count -> rval (os_write os k (mSockFd st) count) <= count) ->
   2 ^ 16 <= Z.of_nat fuel ->
   exists err w' evs,
     SendFrame cfg os enc dec fuel st payload len w = Returns (err, w')
     /\ w_trace w' = (w_trace w ++ evs)%list
     /\ forall f o c rv e,
          In (EvWrite f o c rv e) evs -> rv < 0 ->
          err = OT_ERROR_FAILED /\
          exists before,
            Forall positive_write before /\
            evs = (before ++ [EvWrite f o c rv e; EvPerror "HdlcInterface::Write"])%list)
  /\ (forall s1 s2 s3 b1 b2 b3,
        OPENTHREAD_POSIX_VIRTUAL_TIME cfg = false ->
        Encoder_Init enc (Encoder_new enc) (EncoderBuffer_new cfg)
          = (OT_ERROR_NONE, s1, b1) ->
        Encoder_Encode enc payload len s1 b1 = (OT_ERROR_NONE, s2, b2) ->
        Encoder_Finalize enc s2 b2 = (OT_ERROR_NONE, s3, b3) ->
        GetLength b3 <> 0 ->
        (0 < fuel)%nat ->
        let r := os_write os (w_nwrite w) (mSockFd st) (GetLength b3) in
        rval r < 0 ->
        exists w',
          SendFrame cfg os enc dec fuel st payload len w = Returns (OT_ERROR_FAILED, w')
          /\ w_trace w' = (w_trace w ++ [EvWrite (mSockFd st) 0 (GetLength b3)
                                           (rval r) (errno r);
                                         EvPerror "HdlcInterface::Write"])%list
          /\ w_tx w' = w_tx w
          /\ w_nwrite w' = S (w_nwrite w)).
Proof.
  split.
  - intros Hos Hfuel.
    assert (Hwrite : forall buf n,
               0 <= n < 2 ^ 16 ->
               exists err w' evs,
                 Write cfg os fuel (mSockFd st) buf n w = Returns (err, w')
                 /\ w_trace w' = (w_trace w ++ evs)%list).
    { intros buf n Hn. unfold Write, Write_locals.
      destruct (OPENTHREAD_POSIX_VIRTUAL_TIME cfg) eqn:Hvt.
      - cbn. do 3 eexists. split; reflexivity.
      - destruct (Write_loop_returns os (mSockFd st) buf Hos fuel
                    {| error := OT_ERROR_NONE; aFrame := 0; aLength := n |} w)
          as ([l' w'] & Hrun); cbn [aLength]; try lia.
        rewrite Hrun. cbn.
        apply Write_loop_trace in Hrun. destruct Hrun as (good & tail & Htr & _).
        do 3 eexists. split; [reflexivity|exact Htr]. }
    unfold SendFrame.
    destruct (Encoder_Init enc (Encoder_new enc) (EncoderBuffer_new cfg))
      as [[e1 s1] b1].
    assert (Hnone : forall e0,
               exists err w' evs,
                 Returns (e0, w) = Returns (err, w')
                 /\ w_trace w' = (w_trace w ++ evs)%list
                 /\ forall f o c rv e,
                      In (EvWrite f o c rv e) evs -> rv < 0 ->
                      err = OT_ERROR_FAILED /\
                      exists before,
                        Forall positive_write before /\
                        evs = (before ++ [EvWrite f o c rv e;
                                          EvPerror "HdlcInterface::Write"])%list).
    { intros e0. exists e0, w, []. split; [reflexivity|].
      split; [now rewrite app_nil_r|]. intros f o c rv e []. }
    destruct (negb (otError_eqb e1 OT_ERROR_NONE)); [apply Hnone|].
    destruct (Encoder_Encode enc payload len s1 b1) as [[e2 s2] b2].
    destruct (negb (otError_eqb e2 OT_ERROR_NONE)); [apply Hnone|].
    destruct (Encoder_Finalize enc s2 b2) as [[e3 s3] b3].
    destruct (negb (otError_eqb e3 OT_ERROR_NONE)); [apply Hnone|].
    destruct (Hwrite (GetBuffer b3) (GetLength b3)) as (err & w' & evs & Hrun & Htr).
    { unfold GetLength, uint16_t. apply Z.mod_pos_bound. lia. }
    exists err, w', evs. split; [exact Hrun|]. split; [exact Htr|].
    intros f o c rv e Hin Hrv.
    destruct (Write_stops_at_failed_write cfg os fuel _ _ _ w w' err evs
                f o c rv e Hrun Htr Hin) as (Herr & before & Hb & Hevs); [lia|].
    split; [exact Herr|]. exists before. split; [exact Hb|].
    rewrite Hevs. destruct (rv <? 0) eqn:E; [reflexivity|apply Z.ltb_ge in E; lia].
  - intros s1 s2 s3 b1 b2 b3 Hvt H1 H2 H3 Hlen Hfuel r Hneg.
    unfold SendFrame. rewrite H1. cbn [otError_eqb negb].
    rewrite H2. cbn [otError_eqb negb]. rewrite H3. cbn [otError_eqb negb].
    unfold Write, Write_locals. rewrite Hvt.
    destruct fuel as [|fuel']; [lia|]. cbn [Write_loop aLength aFrame].
    apply Z.eqb_neq in Hlen. rewrite Hlen. unfold sys_write. fold r.
    rewrite Write_body_exit by lia.
    pose proof Hneg as Hneg'. apply Z.ltb_lt in Hneg'. rewrite Hneg'.
    assert (Hpos : (0 <? rval r) = false) by (apply Z.ltb_ge; lia).
    rewrite Hpos. cbn. eexists. split; [reflexivity|]. cbn.
    rewrite <- app_assoc, app_nil_r. auto.
Qed.

(** A [write] that fails with [EIO]. *)
Lemma SendFrame_negative_write_is_Failed_witness :
  exists w',
    SendFrame (Fixture.linux true) (Fixture.os_write_fails Fixture.EIO)
      Fixture.enc0 Fixture.dec0 frame_fuel (Fixture.manager 7) Fixture.payload5 5
      Fixture.w0 = Returns (OT_ERROR_FAILED, w')
    /\ w_trace w' = [EvWrite 7 0 7 (-1) Fixture.EIO; EvPerror "HdlcInterface::Write"].
Proof.
  pose (b1 := snd (Fixture.put [Fixture.flag] (EncoderBuffer_new (Fixture.linux true)))).
  pose (b2 := snd (Fixture.put Fixture.payload5 b1)).
  pose (b3 := snd (Fixture.put [Fixture.flag] b2)).
  destruct (SendFrame_negative_write_is_Failed (Fixture.linux true)
              (Fixture.os_write_fails Fixture.EIO) Fixture.enc0 Fixture.dec0 frame_fuel
              (Fixture.manager 7) Fixture.payload5 5 Fixture.w0) as (Htotal & Hfirst).
  destruct Htotal as (err & w0' & evs & Hrun0 & _).
  { intros k count Hc. cbn. lia. }
  { vm_compute. discriminate. }
  destruct (Hfirst tt tt tt b1 b2 b3) as (w' & Hrun & Htr & _).
  - reflexivity.
  - vm_compute. reflexivity.
  - vm_compute. reflexivity.
  - vm_compute. reflexivity.
  - vm_compute. discriminate.
  - unfold frame_fuel. lia.
  - vm_compute. reflexivity.
  - exists w'. split; [exact Hrun|]. rewrite Htr. vm_compute. reflexivity.
Defined.

(** ** The read cycle *)

Lemma guarded_callbacks (evs : list Event) :
  Forall callback_event evs -> forall n, guarded n evs = true.
Proof.
  induction 1 as [|e evs He _ IH]; intros n; [reflexivity|].
  destruct e as [| | | | | |frame d|d| | | |]; cbn in He; try contradiction; cbn.
  - apply IH.
  - destruct d; [apply IH|contradiction].
  - destruct d; [apply IH|contradiction].
Qed.

Lemma set_mHdlcDecoder_same (dec : HdlcDecoder) (st : HdlcInterface dec) :
  set_mHdlcDecoder dec (mHdlcDecoder st) st = st.
Proof. now destruct st. Qed.

Section QuietListener.

Variable cfg : BuildConfig.
Variable os : OS.
Variable enc : HdlcEncoder.
Variable dec : HdlcDecoder.
Variable mCallbacks : Callbacks.
Variable nested : HdlcInterface dec * World -> outcome (HdlcInterface dec * World).

(** The listener does not call the driver. *)
Hypothesis quiet : forall frame, mCallbacks frame = [].

Lemma Decoder_Decode_quiet :
  forall bytes st w,
    mIsDecoding st = true ->
    exists w' evs,
      Decoder_Decode cfg os enc dec mCallbacks nested bytes (st, w) =
        Returns (set_mHdlcDecoder dec (Decoder_feed dec (mHdlcDecoder st) bytes) st, w')
      /\ w_trace w' = (w_trace w ++ evs)%list
      /\ Forall callback_event evs
      /\ w_nread w' = w_nread w.
Proof.
  induction bytes as [|b bytes IH]; intros st w Hflag.
  - exists w, []. cbn. rewrite set_mHdlcDecoder_same, app_nil_r. auto.
  - cbn [Decoder_Decode Decoder_feed fold_left].
    destruct (Decoder_byte dec (mHdlcDecoder st) b) as [d call] eqn:Hb.
    cbn [fst].
    set (st1 := set_mHdlcDecoder dec d st).
    assert (Hflag1 : mIsDecoding st1 = true) by exact Hflag.
    assert (Hst : forall w1 w',
               Decoder_Decode cfg os enc dec mCallbacks nested bytes (st1, w1) =
                 Returns (set_mHdlcDecoder dec
                            (Decoder_feed dec (mHdlcDecoder st1) bytes) st1, w') ->
               Decoder_Decode cfg os enc dec mCallbacks nested bytes (st1, w1) =
                 Returns (set_mHdlcDecoder dec (fold_left
                            (fun d' b0 => fst (Decoder_byte dec d' b0)) bytes d) st, w'))
      by (intros w1 w' ->; reflexivity).
    destruct call as [[frame|err frame]|].
    + cbn [HandleHdlcFrame]. unfold HandleHdlcFrame. rewrite quiet. cbn [run_listener bind].
      rewrite Hflag1.
      destruct (IH st1 (emit (EvFrameLeave true) (emit (EvFrameEnter frame true) w)) Hflag1)
        as (w' & evs & Hrun & Htr & Hev & Hn).
      exists w', (EvFrameEnter frame true :: EvFrameLeave true :: evs).
      split; [now apply Hst|]. cbn in Htr, Hn. split; [|split].
      * rewrite Htr, <- !app_assoc. reflexivity.
      * repeat constructor; assumption.
      * exact Hn.
    + cbn [HandleHdlcError bind]. unfold HandleHdlcError. cbn [bind].
      destruct (IH st1 (otLogWarnPlat "Error decoding hdlc frame" w) Hflag1)
        as (w' & evs & Hrun & Htr & Hev & Hn).
      exists w', (EvLog "Error decoding hdlc frame" :: evs).
      split; [now apply Hst|]. cbn in Htr, Hn. split; [|split].
      * rewrite Htr, <- app_assoc. reflexivity.
      * constructor; [exact I|assumption].
      * exact Hn.
    + cbn [bind].
      destruct (IH st1 w Hflag1) as (w' & evs & Hrun & Htr & Hev & Hn).
      exists w', evs. split; [now apply Hst|]. auto.
Qed.

Lemma Decode_quiet (aBuffer : list byte) (len : Z) (st : HdlcInterface dec) (w : World) :
  let bytes := firstn (Z.to_nat len) aBuffer in
  exists w' evs,
    Decode cfg os enc dec mCallbacks nested aBuffer len (st, w) =
      Returns (set_mIsDecoding dec false
                 (set_mHdlcDecoder dec (Decoder_feed dec (mHdlcDecoder st) bytes) st), w')
    /\ w_trace w' = (w_trace w ++ EvDecode bytes :: evs)%list
    /\ Forall callback_event evs
    /\ w_nread w' = w_nread w.
Proof.
  intros bytes. unfold Decode. fold bytes.
  destruct (Decoder_Decode_quiet bytes (set_mIsDecoding dec true st)
              (emit (EvDecode bytes) w) eq_refl) as (w' & evs & Hrun & Htr & Hev & Hn).
  exists w', evs. rewrite Hrun. cbn in *. split; [reflexivity|].
  split; [|auto]. rewrite Htr, <- app_assoc. reflexivity.
Qed.

End QuietListener.

(** C3.  The would-block test of [Read] reads [errno] after [perror] has
    run.  A [read] that would block (-1, [EAGAIN]) on a process whose
    [perror] leaves [EINVAL] in [errno] aborts the process, where the claim
    has the call return normally. *)
Lemma Read_would_block_aborts_after_perror :
  let os := Fixture.with_perror Fixture.EINVAL (Fixture.os_read_fails 11) in
  let r := os_read os 0 7 (kMaxFrameSize (Fixture.linux true)) in
  r_rval r = -1
  /\ r_errno r = EAGAIN (Fixture.linux true)
  /\ Read (Fixture.linux true) os Fixture.enc0 Fixture.dec0 Fixture.quiet 1
       (Fixture.manager 7, Fixture.w0) = Aborts.
Proof.
  intros os r. split; [reflexivity|]. split; reflexivity.
Qed.




(** ** Teardown and provisioning *)



(** C4.  [Init] on a manager whose descriptor is already acquired returns
    [OT_ERROR_ALREADY] whatever the radio file and the configuration, with
    the manager and the outside as they were. *)
Theorem Init_already_open
    (cfg : BuildConfig) (os : OS) (dec : HdlcDecoder) (st : HdlcInterface dec)
    (aRadioFile aRadioConfig : string) (w : World) :
  mSockFd st <> -1 ->
  Init cfg os dec st aRadioFile aRadioConfig w = Returns (OT_ERROR_ALREADY, st, w).
Proof.
  intros Hopen. unfold Init. apply Z.eqb_neq in Hopen. now rewrite Hopen.
Qed.

Lemma Init_already_open_witness :
  Init (Fixture.linux true) Fixture.os0 Fixture.dec0 (Fixture.manager 5)
    "/dev/ttyUSB0" "115200N1" Fixture.w0
  = Returns (OT_ERROR_ALREADY, Fixture.manager 5, Fixture.w0).
Proof.
  apply Init_already_open. discriminate.
Defined.

Lemma set_mSockFd_same (dec : HdlcDecoder) (st : HdlcInterface dec) (fd : Z) :
  mSockFd st = fd -> set_mSockFd dec fd st = st.
Proof. intros <-. now destruct st. Qed.

(** C9.  Whenever [Init] returns an error, the manager is what it was
    before the call; a manager that was closed is still closed, with no
    descriptor kept. *)
Theorem Init_error_leaves_manager
    (cfg : BuildConfig) (os : OS) (dec : HdlcDecoder) (st st' : HdlcInterface dec)
    (aRadioFile aRadioConfig : string) (w w' : World) (err : otError) :
  Init cfg os dec st aRadioFile aRadioConfig w = Returns (err, st', w') ->
  err <> OT_ERROR_NONE ->
  st' = st /\ (mSockFd st = -1 -> mSockFd st' = -1).
Proof.
  intros Hrun Herr.
  assert (Hsame : st' = st); [|split; [exact Hsame|now rewrite Hsame]].
  unfold Init in Hrun.
  destruct (mSockFd st =? -1) eqn:Hfd; cbn [negb] in Hrun.
  2:{ now injection Hrun as _ <- _. }
  apply Z.eqb_eq in Hfd.
  assert (Hcase : forall o : outcome (Z * World),
             bind o (fun '(fd, w1) =>
               let st1 := set_mSockFd dec fd st in
               if negb (fd =? -1) then Returns (OT_ERROR_NONE, st1, w1)
               else Returns (OT_ERROR_INVALID_ARGS, st1, w1))
             = Returns (err, st', w') -> st' = st).
  { intros [[fd w1]| | | | |]; cbn; try discriminate.
    destruct (fd =? -1) eqn:E; cbn; intros H; injection H as <- <- _.
    - apply Z.eqb_eq in E. subst fd. now apply set_mSockFd_same.
    - contradiction. }
  destruct (os_stat os aRadioFile) as [[| |]|].
  - now apply Hcase in Hrun.
  - destruct (OPENTHREAD_CONFIG_POSIX_APP_ENABLE_PTY_DEVICE cfg).
    + now apply Hcase in Hrun.
    + now injection Hrun as _ <- _.
  - now injection Hrun as _ <- _.
  - now injection Hrun as _ <- _.
Qed.

(** The device cannot be opened: [Init] fails and the manager stays closed. *)
Lemma Init_error_leaves_manager_witness :
  let os := Fixture.with_open (fun _ => -1) Fixture.os0 in
  exists w',
    Init (Fixture.linux true) os Fixture.dec0 (Fixture.manager (-1))
      "/dev/ttyUSB0" "115200N1" Fixture.w0
    = Returns (OT_ERROR_INVALID_ARGS, Fixture.manager (-1), w').
Proof.
  intros os.
  destruct (Init (Fixture.linux true) os Fixture.dec0 (Fixture.manager (-1))
              "/dev/ttyUSB0" "115200N1" Fixture.w0)
    as [[[err st'] w']| | | | |] eqn:Hrun; try discriminate.
  assert (Herr : err = OT_ERROR_INVALID_ARGS).
  { vm_compute in Hrun. now injection Hrun as <- _ _. }
  subst err. exists w'.
  destruct (Init_error_leaves_manager _ _ _ _ _ _ _ _ _ _ Hrun) as (-> & _);
    [discriminate|reflexivity].
Defined.

(** ** The line parameters *)

Lemma assert_false (cfg : BuildConfig) (A : Type) (k : outcome A) :
  assert cfg false k = if NDEBUG cfg then k else AssertFails.
Proof. reflexivity. Qed.

Lemma switch_parity_unsupported (cfg : BuildConfig) (p : ascii) (cflag : Z) :
  ~ In p ["N"; "E"; "O"]%char ->
  switch_parity cfg p cflag = assert cfg false (Exits OT_EXIT_INVALID_ARGUMENTS).
Proof.
  intros H.
  destruct p as [[] [] [] [] [] [] [] []]; try reflexivity;
    exfalso; apply H; cbn; tauto.
Qed.

Lemma switch_cstopb_unsupported (cfg : BuildConfig) (n : Z) (cflag : Z) :
  ~ In n [1; 2] ->
  switch_cstopb cfg n cflag = assert cfg false (Exits OT_EXIT_INVALID_ARGUMENTS).
Proof.
  intros H. unfold switch_cstopb.
  destruct n as [|p|p]; try reflexivity.
  repeat (destruct p as [p|p|]; try reflexivity);
    exfalso; apply H; cbn; tauto.
Qed.

Lemma switch_speed_outside_table (cfg : BuildConfig) (s : Z) :
  ~ In s all_rates ->
  switch_speed cfg s = assert cfg false (Exits OT_EXIT_INVALID_ARGUMENTS).
Proof.
  intros H. unfold switch_speed.
  destruct s as [|p|p]; try reflexivity.
  repeat (destruct p as [p|p|]; try reflexivity);
    exfalso; apply H; cbn; tauto.
Qed.

Lemma switch_speed_unsupported (cfg : BuildConfig) (s : Z) :
  ~ In s (supported_rates cfg) ->
  switch_speed cfg s = assert cfg false (Exits OT_EXIT_INVALID_ARGUMENTS).
Proof.
  intros H. destruct (in_dec Z.eq_dec s all_rates) as [Hin|Hout].
  - unfold all_rates in Hin. apply in_app_or in Hin. destruct Hin as [Hm|Ho].
    + exfalso. apply H. unfold supported_rates. apply in_or_app. now left.
    + assert (Hundef : B_defined cfg s = false).
      { destruct (B_defined cfg s) eqn:E; [|reflexivity].
        exfalso. apply H. unfold supported_rates. apply in_or_app. right.
        apply filter_In. now split. }
      cbn in Ho.
      repeat (destruct Ho as [<-|Ho];
              [cbn [switch_speed]; unfold ifdef_B; now rewrite Hundef|]).
      destruct Ho.
  - now apply switch_speed_outside_table.
Qed.

Lemma switch_parity_cases (cfg : BuildConfig) (p : ascii) (cflag : Z) :
  In p ["N"; "E"; "O"]%char -> exists cflag', switch_parity cfg p cflag = Returns cflag'.
Proof.
  intros [<-|[<-|[<-|[]]]]; cbn; eauto.
Qed.

Lemma switch_cstopb_cases (cfg : BuildConfig) (n : Z) (cflag : Z) :
  In n [1; 2] -> exists cflag', switch_cstopb cfg n cflag = Returns cflag'.
Proof.
  intros [<-|[<-|[]]]; cbn; eauto.
Qed.

(** C5, as stated, fails in a build that keeps its assertions: the
    [assert(false)] in front of the [exit] ends the process first. *)
Lemma OpenFile_unsupported_parity_asserts :
  snd (sscanf_u_c_d (Fixture.linux false) "115200X1" default_line)
    = {| speed := 115200; parity := "X"; cstopb := 1 |}
  /\ NDEBUG (Fixture.linux false) = false
  /\ OpenFile (Fixture.linux false) Fixture.os0 "/dev/ttyUSB0" "115200X1" Fixture.w0
     = AssertFails
  /\ OpenFile (Fixture.linux false) Fixture.os0 "/dev/ttyUSB0" "115200X1" Fixture.w0
     <> Exits OT_EXIT_INVALID_ARGUMENTS.
Proof.
  split; [reflexivity|]. split; [reflexivity|]. split; [reflexivity|discriminate].
Qed.

(** C5, amended.  On a terminal whose attributes could be read, a parsed
    line configuration whose baud rate is not in the table of supported
    rates, or whose parity letter is not one of N, E, O, or whose stop-bit
    count is not 1 or 2, ends the process: with the invalid-arguments exit
    status where assertions are compiled out, on the failed assertion
    otherwise.  No default stands in for the field. *)
Theorem OpenFile_rejects_unsupported_line
    (cfg : BuildConfig) (os : OS) (aFile aConfig : string) (w : World) :
  let fd := os_open os aFile in
  let lc := snd (sscanf_u_c_d cfg aConfig default_line) in
  fd <> -1 -> os_isatty os fd = true -> os_tcgetattr os fd = 0 ->
  ~ In (speed lc) (supported_rates cfg)
  \/ ~ In (parity lc) ["N"; "E"; "O"]%char
  \/ ~ In (cstopb lc) [1; 2] ->
  OpenFile cfg os aFile aConfig w =
    (if NDEBUG cfg then Exits OT_EXIT_INVALID_ARGUMENTS else AssertFails)
  /\ terminates_process (OpenFile cfg os aFile aConfig w) = true.
Proof.
  intros fd lc Hfd Htty Hattr Hbad.
  assert (Hrun : OpenFile cfg os aFile aConfig w =
                 (if NDEBUG cfg then Exits OT_EXIT_INVALID_ARGUMENTS else AssertFails)).
  { unfold OpenFile. fold fd. apply Z.eqb_neq in Hfd. rewrite Hfd, Htty, Hattr.
    cbn [Z.eqb negb]. fold lc. unfold program_line.
    rewrite <- (assert_false cfg (Z * World)).
    destruct (in_dec ascii_dec (parity lc) ["N"; "E"; "O"]%char) as [Hp|Hp].
    2:{ rewrite switch_parity_unsupported by exact Hp. unfold assert.
        now destruct (NDEBUG cfg). }
    match goal with
    | |- context [switch_parity cfg (parity lc) ?c] =>
        destruct (switch_parity_cases cfg (parity lc) c Hp) as (c1 & ->)
    end. cbn [bind].
    destruct (in_dec Z.eq_dec (cstopb lc) [1; 2]) as [Hs|Hs].
    2:{ rewrite switch_cstopb_unsupported by exact Hs. unfold assert.
        now destruct (NDEBUG cfg). }
    destruct (switch_cstopb_cases cfg (cstopb lc) c1 Hs) as (c2 & ->). cbn [bind].
    destruct Hbad as [Hb|[Hb|Hb]]; try contradiction.
    rewrite switch_speed_unsupported by exact Hb. unfold assert.
    now destruct (NDEBUG cfg). }
  split; [exact Hrun|]. rewrite Hrun. now destruct (NDEBUG cfg).
Qed.

Lemma OpenFile_rejects_unsupported_line_witness :
  OpenFile (Fixture.linux true) Fixture.os0 "/dev/ttyUSB0" "115201N1" Fixture.w0
  = Exits OT_EXIT_INVALID_ARGUMENTS.
Proof.
  apply (OpenFile_rejects_unsupported_line (Fixture.linux true) Fixture.os0
           "/dev/ttyUSB0" "115201N1" Fixture.w0).
  - discriminate.
  - reflexivity.
  - reflexivity.
  - left. cbn. intros H.
    repeat (destruct H as [H|H]; [discriminate|]). exact H.
Defined.

(** A digit is neither white space nor a sign. *)
Lemma digit_starts_number (c : ascii) (d : Z) (s : string) :
  digit_of c = Some d ->
  isspace c = false
  /\ match String c s with
     | String "-"%char t => (true, t)
     | String "+"%char t => (false, t)
     | _ => (false, String c s)
     end = (false, String c s).
Proof.
  destruct c as [[] [] [] [] [] [] [] []]; cbn; intros H;
    try discriminate; split; reflexivity.
Qed.

Lemma scan_digits_decimal (ds rest : string) :
  all_digits ds = true -> ends_number rest ->
  forall acc, scan_digits acc (ds ++ rest) = (decimal_from acc ds, rest).
Proof.
  intros Hds Hrest. induction ds as [|c ds IH]; intros acc; cbn.
  - destruct rest as [|c rest]; [reflexivity|]. cbn in Hrest |- *. now rewrite Hrest.
  - cbn in Hds. destruct (digit_of c); [|discriminate]. now apply IH.
Qed.

Lemma scan_integer_decimal (ds rest : string) :
  decimal_rate ds -> ends_number rest ->
  scan_integer (ds ++ rest) = Some (false, decimal_from 0 ds, rest).
Proof.
  intros [Hne Hds] Hrest. destruct ds as [|c ds]; [contradiction|].
  pose proof (scan_digits_decimal (String c ds) rest Hds Hrest 0) as Hscan.
  cbn in Hds. destruct (digit_of c) as [d|] eqn:Hc; [|discriminate].
  destruct (digit_starts_number c d (ds ++ rest) Hc) as (Hsp & Hsign).
  unfold scan_integer. cbn [append skip_space] in *. rewrite Hsp, Hsign, Hc, Hscan.
  reflexivity.
Qed.

Lemma append_empty (s : string) : (s ++ "")%string = s.
Proof. induction s as [|c s IH]; cbn; [reflexivity|now rewrite IH]. Qed.

(** * Further properties of the driver *)

(** ** Write and SendFrame *)

Section WritePrefix.

Variable os : OS.
Variable fd : Z.
Variable buf : list byte.

(** [write] reports no more than it was asked for. *)
Hypothesis write_contract :
  forall k count, 0 < count -> rval (os_write os k fd count) <= count.

Lemma Write_loop_prefix :
  forall fuel l w l' w',
    0 <= aFrame l -> 0 <= aLength l < 2 ^ 16 ->
    Write_loop os fuel fd buf l w = Returns (l', w') ->
    exists k,
      0 <= k <= aLength l
      /\ w_tx w' = (w_tx w ++ firstn (Z.to_nat k) (skipn (Z.to_nat (aFrame l)) buf))%list
      /\ Z.of_nat (w_nwrite w') <= Z.of_nat (w_nwrite w) + aLength l
      /\ ((error l' = error l /\ k = aLength l)
          \/ (error l' = OT_ERROR_FAILED /\ k < aLength l)).
Proof.
  induction fuel as [|fuel IH]; intros l w l' w' Hoff Hlen Hrun; [discriminate|].
  cbn [Write_loop] in Hrun. destruct (aLength l =? 0) eqn:E0.
  - injection Hrun as <- <-. apply Z.eqb_eq in E0. exists 0.
    cbn. rewrite app_nil_r. repeat split; try lia. left. auto.
  - apply Z.eqb_neq in E0. unfold sys_write in Hrun.
    set (r := os_write os (w_nwrite w) fd (aLength l)) in *.
    assert (Hr : rval r <= aLength l) by (apply write_contract; lia).
    destruct (0 <? rval r) eqn:Epos.
    + apply Z.ltb_lt in Epos. rewrite Write_body_short_write in Hrun by lia.
      destruct (rval r <? 0) eqn:Eneg; [apply Z.ltb_lt in Eneg; lia|].
      apply IH in Hrun; cbn [aFrame aLength error] in *; try lia.
      destruct Hrun as (k & Hk & Htx & Hn & Hend).
      cbn [w_tx w_nwrite] in Htx, Hn.
      exists (rval r + k). split; [lia|]. split; [|split].
      * rewrite Htx, <- app_assoc. f_equal.
        replace (Z.to_nat (rval r + k)) with (Z.to_nat (rval r) + Z.to_nat k)%nat by lia.
        rewrite firstn_add_skipn. f_equal. f_equal.
        rewrite <- skipn_add. f_equal. lia.
      * lia.
      * destruct Hend as [(He & Hk')|(He & Hk')]; [left|right]; split; auto; lia.
    + apply Z.ltb_ge in Epos. rewrite Write_body_exit in Hrun by lia.
      exists 0. split; [lia|].
      destruct (rval r <? 0); cbn in Hrun; injection Hrun as <- <-;
        cbn; rewrite !app_nil_r;
        repeat split; try lia; right; split; auto; lia.
Qed.

End WritePrefix.

Lemma Write_error_kinds (cfg : BuildConfig) (os : OS) (fuel : nat) (fd : Z)
    (buf : list byte) (len : Z) (w w' : World) (err : otError) :
  Write cfg os fuel fd buf len w = Returns (err, w') ->
  err = OT_ERROR_NONE \/ err = OT_ERROR_FAILED.
Proof.
  unfold Write. intros Hrun.
  destruct (Write_locals cfg os fuel fd buf len w) as [[l1 w1]| | | | |] eqn:Hl;
    try discriminate.
  cbn in Hrun. injection Hrun as <- <-.
  destruct (OPENTHREAD_POSIX_VIRTUAL_TIME cfg) eqn:Hvt.
  - unfold Write_locals in Hl. rewrite Hvt in Hl. injection Hl as <- _. now left.
  - apply Write_locals_trace in Hl; [|exact Hvt].
    destruct Hl as (_ & tail & _ & _ & [(_ & He & _)|[(f & o & c & rv & e & _ & _ & He & _)
                                                    |(f & o & c & e & _ & He & _)]]);
      cbn in He; auto.
Qed.

(** X1.  Against a [write] that reports no more than it was asked for,
    whatever else it answers, what [Write] has put on the channel when it
    returns is a prefix of the frame: the whole of it with
    [OT_ERROR_NONE], a proper prefix with [OT_ERROR_FAILED].  It never
    issues more [write] calls than the frame has bytes. *)
Theorem Write_sends_a_prefix
    (cfg : BuildConfig) (os : OS) (fuel : nat) (fd : Z) (buf : list byte)
    (len : Z) (w w' : World) (err : otError) :
  OPENTHREAD_POSIX_VIRTUAL_TIME cfg = false ->
  0 <= len < 2 ^ 16 ->
  (forall k count, 0 < count -> rval (os_write os k fd count) <= count) ->
  Write cfg os fuel fd buf len w = Returns (err, w') ->
  exists k,
    0 <= k <= len
    /\ w_tx w' = (w_tx w ++ firstn (Z.to_nat k) buf)%list
    /\ ((err = OT_ERROR_NONE /\ k = len) \/ (err = OT_ERROR_FAILED /\ k < len))
    /\ Z.of_nat (w_nwrite w') <= Z.of_nat (w_nwrite w) + len.
Proof.
  intros Hvt Hlen Hos Hrun. unfold Write, Write_locals in Hrun. rewrite Hvt in Hrun.
  destruct (Write_loop os fuel fd buf
              {| error := OT_ERROR_NONE; aFrame := 0; aLength := len |} w)
    as [[l1 w1]| | | | |] eqn:Hl; try discriminate.
  cbn in Hrun. injection Hrun as <- <-.
  apply (Write_loop_prefix os fd buf Hos) in Hl; cbn [aFrame aLength error] in *; try lia.
  destruct Hl as (k & Hk & Htx & Hn & Hend). exists k.
  repeat split; try lia; auto.
Qed.

(** Three bytes of five are taken, then none. *)
Lemma Write_sends_a_prefix_witness :
  let os := Fixture.with_write
              (fun k _ count => {| rval := if Nat.eqb k 0 then Z.min count 3 else 0;
                                   errno := 0 |}) Fixture.os0 in
  exists k w',
    Write (Fixture.linux true) os 6 7 Fixture.payload5 5 Fixture.w0
      = Returns (OT_ERROR_FAILED, w')
    /\ 0 <= k < 5
    /\ w_tx w' = firstn (Z.to_nat k) Fixture.payload5.
Proof.
  intros os.
  destruct (Write (Fixture.linux true) os 6 7 Fixture.payload5 5 Fixture.w0)
    as [[err w']| | | | |] eqn:Hrun; try discriminate.
  assert (Herr : err = OT_ERROR_FAILED).
  { vm_compute in Hrun. now injection Hrun as <- _. }
  destruct (Write_sends_a_prefix (Fixture.linux true) os 6 7 Fixture.payload5 5
              Fixture.w0 w' err) as (k & Hk & Htx & Hend & _).
  - reflexivity.
  - lia.
  - intros n count Hc. cbn. destruct (Nat.eqb n 0); lia.
  - exact Hrun.
  - exists k, w'. subst err. split; [reflexivity|].
    destruct Hend as [(Habs & _)|(_ & Hlt)]; [discriminate|].
    split; [lia|exact Htx].
Defined.

(** X2.  An error of [SendFrame] other than [OT_ERROR_FAILED] comes from
    the encoder, and then nothing has reached the channel: the outside is
    as it was, no [write] was issued. *)
Theorem SendFrame_encoder_error_writes_nothing
    (cfg : BuildConfig) (os : OS) (enc : HdlcEncoder) (dec : HdlcDecoder)
    (fuel : nat) (st : HdlcInterface dec) (payload : list byte) (len : Z)
    (w w' : World) (err : otError) :
  SendFrame cfg os enc dec fuel st payload len w = Returns (err, w') ->
  err <> OT_ERROR_NONE -> err <> OT_ERROR_FAILED ->
  w' = w.
Proof.
  intros Hrun Hnone Hfailed. unfold SendFrame in Hrun.
  destruct (Encoder_Init enc (Encoder_new enc) (EncoderBuffer_new cfg))
    as [[e1 s1] b1].
  destruct (negb (otError_eqb e1 OT_ERROR_NONE)); [now injection Hrun as _ <-|].
  destruct (Encoder_Encode enc payload len s1 b1) as [[e2 s2] b2].
  destruct (negb (otError_eqb e2 OT_ERROR_NONE)); [now injection Hrun as _ <-|].
  destruct (Encoder_Finalize enc s2 b2) as [[e3 s3] b3].
  destruct (negb (otError_eqb e3 OT_ERROR_NONE)); [now injection Hrun as _ <-|].
  apply Write_error_kinds in Hrun. destruct Hrun; contradiction.
Qed.

(** A payload that does not fit the encoder buffer. *)
Lemma SendFrame_encoder_error_writes_nothing_witness :
  SendFrame (Fixture.linux true) Fixture.os0 Fixture.enc0 Fixture.dec0 8
    (Fixture.manager 7) (repeat "001"%byte 2048) 2048 Fixture.w0
  = Returns (OT_ERROR_NO_BUFS, Fixture.w0).
Proof.
  destruct (SendFrame (Fixture.linux true) Fixture.os0 Fixture.enc0 Fixture.dec0 8
              (Fixture.manager 7) (repeat "001"%byte 2048) 2048 Fixture.w0)
    as [[err w']| | | | |] eqn:Hrun; try (vm_compute in Hrun; discriminate).
  assert (Herr : err = OT_ERROR_NO_BUFS).
  { vm_compute in Hrun. now injection Hrun as <- _. }
  subst err. f_equal. f_equal.
  apply (SendFrame_encoder_error_writes_nothing _ _ _ _ _ _ _ _ _ _ _ Hrun);
    discriminate.
Defined.

(** X3.  Encode, then write: when the three encoder steps succeed and the
    channel takes a positive number of bytes, no more than asked, at every
    [write], [SendFrame] returns [OT_ERROR_NONE] and the channel has
    received the bytes the encoder left in its buffer, up to its write
    pointer, and nothing else. *)
Theorem SendFrame_sends_encoded_frame
    (cfg : BuildConfig) (os : OS) (enc : HdlcEncoder) (dec : HdlcDecoder)
    (fuel : nat) (st : HdlcInterface dec) (payload : list byte) (len : Z) (w : World)
    (s1 s2 s3 : EncoderState enc) (b1 b2 b3 : EncoderBuffer) :
  OPENTHREAD_POSIX_VIRTUAL_TIME cfg = false ->
  Encoder_Init enc (Encoder_new enc) (EncoderBuffer_new cfg) = (OT_ERROR_NONE, s1, b1) ->
  Encoder_Encode enc payload len s1 b1 = (OT_ERROR_NONE, s2, b2) ->
  Encoder_Finalize enc s2 b2 = (OT_ERROR_NONE, s3, b3) ->
  (forall k count, 0 < count -> 0 < rval (os_write os k (mSockFd st) count) <= count) ->
  (Z.to_nat (GetLength b3) < fuel)%nat ->
  exists w',
    SendFrame cfg os enc dec fuel st payload len w = Returns (OT_ERROR_NONE, w')
    /\ w_tx w' = (w_tx w ++ firstn (Z.to_nat (GetLength b3)) (GetBuffer b3))%list.
Proof.
  intros Hvt H1 H2 H3 Hos Hfuel. unfold SendFrame. rewrite H1. cbn [otError_eqb negb].
  rewrite H2. cbn [otError_eqb negb]. rewrite H3. cbn [otError_eqb negb].
  assert (Hlen : 0 <= GetLength b3 < 2 ^ 16).
  { unfold GetLength, uint16_t. apply Z.mod_pos_bound. lia. }
  destruct (Write_loop_short_writes os (mSockFd st) (GetBuffer b3) Hos fuel
              {| error := OT_ERROR_NONE; aFrame := 0; aLength := GetLength b3 |} w)
    as (w' & evs & Hrun & Htx & _); cbn [aFrame aLength]; try lia.
  exists w'. unfold Write, Write_locals. rewrite Hvt, Hrun. cbn.
  split; [reflexivity|exact Htx].
Qed.

Lemma SendFrame_sends_encoded_frame_witness :
  exists w',
    SendFrame (Fixture.linux true) Fixture.os0 Fixture.enc0 Fixture.dec0 8
      (Fixture.manager 7) Fixture.payload5 5 Fixture.w0 = Returns (OT_ERROR_NONE, w')
    /\ w_tx w' = (Fixture.flag :: Fixture.payload5 ++ [Fixture.flag])%list.
Proof.
  pose (b1 := snd (Fixture.put [Fixture.flag] (EncoderBuffer_new (Fixture.linux true)))).
  pose (b2 := snd (Fixture.put Fixture.payload5 b1)).
  pose (b3 := snd (Fixture.put [Fixture.flag] b2)).
  destruct (SendFrame_sends_encoded_frame (Fixture.linux true) Fixture.os0 Fixture.enc0
              Fixture.dec0 8 (Fixture.manager 7) Fixture.payload5 5 Fixture.w0
              tt tt tt b1 b2 b3) as (w' & Hrun & Htx).
  - reflexivity.
  - vm_compute. reflexivity.
  - vm_compute. reflexivity.
  - vm_compute. reflexivity.
  - intros k count Hc. cbn. lia.
  - vm_compute. lia.
  - exists w'. split; [exact Hrun|]. rewrite Htx. vm_compute. reflexivity.
Defined.

(** ** The life cycle of the manager *)

Ltac settle_cases :=
  repeat split; intros; cbn in *; try lia; auto;
  repeat match goal with
         | H : _ \/ _ |- _ => destruct H
         | H : _ /\ _ |- _ => destruct H
         | H : False |- _ => destruct H
         end;
  try discriminate; try lia; try contradiction; auto.

Lemma Deinit_open_cases
    (cfg : BuildConfig) (os : OS) (dec : HdlcDecoder)
    (st : HdlcInterface dec) (w : World) :
  mSockFd st <> -1 ->
  exists st' w' evs,
    Deinit cfg os dec (st, w) = Returns (st', w')
    /\ w_trace w' = (w_trace w ++ EvClose (mSockFd st) :: evs)%list
    /\ (mSockFd st' = -1 <-> os_close os (mSockFd st) = 0 /\ os_wait os <> -1)
    /\ (mSockFd st' <> -1 -> st' = st)
    /\ (In EvWait evs <-> os_close os (mSockFd st) = 0).
Proof.
  intros Hopen. unfold Deinit, assert.
  pose proof Hopen as Hopen'. apply Z.eqb_neq in Hopen'. rewrite Hopen'. cbn [negb].
  assert (Hk : forall k : outcome (HdlcInterface dec * World),
             (if NDEBUG cfg then k else k) = k) by (intros k; now destruct (NDEBUG cfg)).
  rewrite Hk. clear Hk Hopen'.
  destruct (0 =? os_close os (mSockFd st)) eqn:Ec; cbn [negb].
  - apply Z.eqb_eq in Ec. destruct (-1 =? os_wait os) eqn:Ew; cbn [negb].
    + apply Z.eqb_eq in Ew.
      exists st, (perror os "wait NCP" (emit EvWait (emit (EvClose (mSockFd st)) w))),
        [EvWait; EvPerror "wait NCP"].
      split; [reflexivity|]. split; [cbn; now rewrite <- !app_assoc|].
      settle_cases.
    + apply Z.eqb_neq in Ew.
      exists (set_mSockFd dec (-1) st), (emit EvWait (emit (EvClose (mSockFd st)) w)),
        [EvWait].
      split; [reflexivity|]. split; [cbn; now rewrite <- !app_assoc|].
      settle_cases.
  - apply Z.eqb_neq in Ec.
    exists st, (perror os "close NCP" (emit (EvClose (mSockFd st)) w)),
      [EvPerror "close NCP"].
    split; [reflexivity|]. split; [cbn; now rewrite <- !app_assoc|].
    settle_cases.
Qed.

(** X4.  [Deinit] on an open manager always returns, and marks the manager
    closed exactly when both [close] and [wait] succeeded.  In every other
    case the manager is left as it was, descriptor included; [wait] is
    called only after a successful [close]. *)
Theorem Deinit_closes_after_close_and_wait
    (cfg : BuildConfig) (os : OS) (dec : HdlcDecoder)
    (st : HdlcInterface dec) (w : World) :
  mSockFd st <> -1 ->
  exists st' w' evs,
    Deinit cfg os dec (st, w) = Returns (st', w')
    /\ w_trace w' = (w_trace w ++ EvClose (mSockFd st) :: evs)%list
    /\ (mSockFd st' = -1 <-> os_close os (mSockFd st) = 0 /\ os_wait os <> -1)
    /\ (mSockFd st' <> -1 -> st' = st)
    /\ (In EvWait evs <-> os_close os (mSockFd st) = 0).
Proof. apply Deinit_open_cases. Qed.

Lemma Deinit_closes_after_close_and_wait_witness :
  exists st' w',
    Deinit (Fixture.linux true) Fixture.os0 Fixture.dec0
      (Fixture.manager 7, Fixture.w0) = Returns (st', w')
    /\ mSockFd st' = -1.
Proof.
  destruct (Deinit_closes_after_close_and_wait (Fixture.linux true) Fixture.os0
              Fixture.dec0 (Fixture.manager 7) Fixture.w0)
    as (st' & w' & evs & Hrun & _ & Hclosed & _); [discriminate|].
  exists st', w'. split; [exact Hrun|].
  apply Hclosed. split; [reflexivity|discriminate].
Defined.

Lemma Init_closed_not_already
    (cfg : BuildConfig) (os : OS) (dec : HdlcDecoder) (st st' : HdlcInterface dec)
    (aRadioFile aRadioConfig : string) (w w' : World) (err : otError) :
  mSockFd st = -1 ->
  Init cfg os dec st aRadioFile aRadioConfig w = Returns (err, st', w') ->
  err <> OT_ERROR_ALREADY
  /\ (err = OT_ERROR_NONE -> mSockFd st' <> -1).
Proof.
  intros Hclosed Hrun. unfold Init in Hrun. rewrite Hclosed in Hrun.
  cbn [Z.eqb negb] in Hrun.
  assert (Hcase : forall o : outcome (Z * World),
             ('(fd, w1) <- o ;;
              let st1 := set_mSockFd dec fd st in
              if negb (fd =? -1) then Returns (OT_ERROR_NONE, st1, w1)
              else Returns (OT_ERROR_INVALID_ARGS, st1, w1))
             = Returns (err, st', w') ->
             err <> OT_ERROR_ALREADY /\ (err = OT_ERROR_NONE -> mSockFd st' <> -1)).
  { intros [[fd w1]| | | | |]; cbn; try discriminate.
    destruct (fd =? -1) eqn:E; cbn; intros H; injection H as <- <- _.
    - split; discriminate.
    - apply Z.eqb_neq in E. split; [discriminate|]. intros _. exact E. }
  destruct (os_stat os aRadioFile) as [[| |]|].
  - now apply Hcase in Hrun.
  - destruct (OPENTHREAD_CONFIG_POSIX_APP_ENABLE_PTY_DEVICE cfg).
    + now apply Hcase in Hrun.
    + injection Hrun as <- _ _. split; discriminate.
  - injection Hrun as <- _ _. split; discriminate.
  - injection Hrun as <- _ _. split; discriminate.
Qed.

(** X5.  Teardown, then a new [Init]: after a [Deinit] of an open manager,
    [Init] answers [OT_ERROR_ALREADY] exactly when that [Deinit] failed at
    [close] or at [wait]; in particular a [wait] that fails (there is no
    child to wait for) leaves a manager that cannot be opened again, its
    descriptor closed all the same. *)
Theorem Deinit_then_Init
    (cfg : BuildConfig) (os os2 : OS) (dec : HdlcDecoder)
    (st st' : HdlcInterface dec) (w w' w2 : World) (aRadioFile aRadioConfig : string) :
  mSockFd st <> -1 ->
  Deinit cfg os dec (st, w) = Returns (st', w') ->
  ((os_close os (mSockFd st) <> 0 \/ os_wait os = -1) ->
     Init cfg os2 dec st' aRadioFile aRadioConfig w2 = Returns (OT_ERROR_ALREADY, st', w2))
  /\ (os_close os (mSockFd st) = 0 -> os_wait os <> -1 ->
        forall err st2 w3,
          Init cfg os2 dec st' aRadioFile aRadioConfig w2 = Returns (err, st2, w3) ->
          err <> OT_ERROR_ALREADY).
Proof.
  intros Hopen Hrun.
  destruct (Deinit_open_cases cfg os dec st w Hopen)
    as (st1 & w1 & evs & Hrun1 & _ & Hclosed & Hsame & _).
  rewrite Hrun in Hrun1. injection Hrun1 as <- <-. split.
  - intros Hfail.
    assert (Hstill : mSockFd st' <> -1).
    { intros Hc. apply Hclosed in Hc. destruct Hc as (Hc & Hw).
      destruct Hfail; contradiction. }
    unfold Init. apply Z.eqb_neq in Hstill. now rewrite Hstill.
  - intros Hc Hw err st2 w3 Hinit.
    assert (Hnow : mSockFd st' = -1) by (apply Hclosed; auto).
    apply (Init_closed_not_already cfg os2 dec st' st2 _ _ w2 w3 err Hnow Hinit).
Qed.

(** A character device has no child: [wait] fails, and the manager stays
    marked open. *)
Lemma Deinit_then_Init_witness :
  let os := Fixture.with_wait (-1) Fixture.os0 in
  exists st' w',
    Deinit (Fixture.linux true) os Fixture.dec0 (Fixture.manager 7, Fixture.w0)
      = Returns (st', w')
    /\ Init (Fixture.linux true) Fixture.os0 Fixture.dec0 st'
         "/dev/ttyUSB0" "115200N1" Fixture.w0
       = Returns (OT_ERROR_ALREADY, st', Fixture.w0).
Proof.
  intros os.
  destruct (Deinit (Fixture.linux true) os Fixture.dec0 (Fixture.manager 7, Fixture.w0))
    as [[st' w']| | | | |] eqn:Hrun; try discriminate.
  exists st', w'. split; [reflexivity|].
  apply (Deinit_then_Init (Fixture.linux true) os Fixture.os0 Fixture.dec0
           (Fixture.manager 7) st' Fixture.w0 w' Fixture.w0 "/dev/ttyUSB0" "115200N1").
  - discriminate.
  - exact Hrun.
  - right. reflexivity.
Defined.

(** ** Opening and programming the device *)

Lemma assert_false_not_returns (cfg : BuildConfig) (A : Type) (a : A) :
  assert cfg false (Exits OT_EXIT_INVALID_ARGUMENTS) <> Returns a.
Proof. unfold assert. destruct (NDEBUG cfg); discriminate. Qed.

Lemma switch_parity_returns (cfg : BuildConfig) (p : ascii) (c c' : Z) :
  switch_parity cfg p c = Returns c' ->
  (p = "N"%char /\ c' = c)
  \/ (p = "E"%char /\ c' = Z.lor c (PARENB cfg))
  \/ (p = "O"%char /\ c' = Z.lor c (Z.lor (PARENB cfg) (PARODD cfg))).
Proof.
  destruct (in_dec ascii_dec p ["N"; "E"; "O"]%char) as [[<-|[<-|[<-|[]]]]|Hout];
    cbn; intros H.
  - injection H as <-. auto.
  - injection H as <-. auto.
  - injection H as <-. auto.
  - rewrite switch_parity_unsupported in H by exact Hout.
    now apply assert_false_not_returns in H.
Qed.

Lemma switch_cstopb_returns (cfg : BuildConfig) (n c c' : Z) :
  switch_cstopb cfg n c = Returns c' ->
  (n = 1 /\ c' = Z.land c (Z.lnot (CSTOPB cfg)))
  \/ (n = 2 /\ c' = Z.lor c (CSTOPB cfg)).
Proof.
  destruct (in_dec Z.eq_dec n [1; 2]) as [[<-|[<-|[]]]|Hout]; cbn; intros H.
  - injection H as <-. auto.
  - injection H as <-. auto.
  - rewrite switch_cstopb_unsupported in H by exact Hout.
    now apply assert_false_not_returns in H.
Qed.

Lemma switch_speed_supported (cfg : BuildConfig) (s : Z) :
  In s (supported_rates cfg) -> switch_speed cfg s = Returns (B cfg s).
Proof.
  unfold supported_rates. intros H. apply in_app_or in H. destruct H as [H|H].
  - cbn in H. repeat (destruct H as [<-|H]; [reflexivity|]). destruct H.
  - apply filter_In in H. destruct H as (H & Hdef). cbn in H.
    repeat (destruct H as [<-|H];
            [cbn [switch_speed]; unfold ifdef_B; now rewrite Hdef|]).
    destruct H.
Qed.

Lemma switch_speed_returns (cfg : BuildConfig) (s v : Z) :
  switch_speed cfg s = Returns v -> In s (supported_rates cfg) /\ v = B cfg s.
Proof.
  intros H. destruct (in_dec Z.eq_dec s (supported_rates cfg)) as [Hin|Hout].
  - split; [exact Hin|]. rewrite switch_speed_supported in H by exact Hin.
    now injection H as <-.
  - rewrite switch_speed_unsupported in H by exact Hout.
    now apply assert_false_not_returns in H.
Qed.

(** X7.  The [switch (speed)] table: it yields a speed constant exactly for
    the supported rates (the five that are always there and those whose
    [B] macro the platform defines), and the constant it yields for a rate
    is the [B] constant of that same rate. *)
Theorem switch_speed_table (cfg : BuildConfig) (s : Z) :
  (In s (supported_rates cfg) -> switch_speed cfg s = Returns (B cfg s))
  /\ (forall v, switch_speed cfg s = Returns v ->
        In s (supported_rates cfg) /\ v = B cfg s)
  /\ (~ In s (supported_rates cfg) ->
        terminates_process (switch_speed cfg s) = true).
Proof.
  split; [apply switch_speed_supported|]. split.
  - intros v. apply switch_speed_returns.
  - intros Hout. rewrite switch_speed_unsupported by exact Hout.
    unfold assert. now destruct (NDEBUG cfg).
Qed.

(** On a platform without [B460800], 460800 baud is refused and 230400 is
    mapped to [B230400]. *)
Lemma switch_speed_table_witness :
  let cfg := Fixture.darwin in
  switch_speed cfg 230400 = Returns (B cfg 230400)
  /\ terminates_process (switch_speed cfg 460800) = true.
Proof.
  intros cfg.
  destruct (switch_speed_table cfg 230400) as (Hin & _).
  destruct (switch_speed_table cfg 460800) as (_ & _ & Hout).
  split.
  - apply Hin. cbn. tauto.
  - apply Hout. cbn. intros H.
    repeat (destruct H as [H|H]; [discriminate|]). exact H.
Defined.

Lemma program_line_returns
    (cfg : BuildConfig) (os : OS) (fd fd' : Z) (lc : LineConfig) (w w' : World) :
  program_line cfg os fd lc w = Returns (fd', w') ->
  exists c1 c2,
    switch_parity cfg (parity lc) (raw_cflag cfg) = Returns c1
    /\ switch_cstopb cfg (cstopb lc) c1 = Returns c2
    /\ In (speed lc) (supported_rates cfg)
    /\ os_cfsetspeed os (B cfg (speed lc)) = 0
    /\ os_tcsetattr os fd = 0
    /\ os_tcflush os fd = 0
    /\ fd' = fd
    /\ w' = emit (EvTcflush fd)
              (emit (EvTcsetattr fd {| c_cflag := c2; c_speed := B cfg (speed lc) |}) w).
Proof.
  unfold program_line. fold (raw_cflag cfg). intros H.
  destruct (switch_parity cfg (parity lc) (raw_cflag cfg)) as [c1| | | | |] eqn:Hp;
    try discriminate.
  cbn [bind] in H.
  destruct (switch_cstopb cfg (cstopb lc) c1) as [c2| | | | |] eqn:Hs; try discriminate.
  cbn [bind] in H.
  destruct (switch_speed cfg (speed lc)) as [sp| | | | |] eqn:Hb; try discriminate.
  cbn [bind] in H.
  apply switch_speed_returns in Hb. destruct Hb as (Hin & ->).
  unfold OpenFile_exit in H.
  destruct (os_cfsetspeed os (B cfg (speed lc)) =? 0) eqn:E1; cbn [negb] in H;
    [|discriminate].
  destruct (os_tcsetattr os fd =? 0) eqn:E2; cbn [negb] in H; [|discriminate].
  destruct (os_tcflush os fd =? 0) eqn:E3; cbn [negb] in H; [|discriminate].
  apply Z.eqb_eq in E1, E2, E3. injection H as <- <-.
  exists c1, c2. repeat split; auto.
Qed.

(** X8.  Whenever [OpenFile] returns, it returns what [open] gave.  On a
    failed [open] and on a device that is not a terminal nothing is
    programmed, whatever the configuration string.  On a terminal it
    returns only after [tcgetattr], [cfsetspeed], [tcsetattr] and [tcflush]
    all succeeded on a supported rate, parity letter and stop-bit count:
    one [tcsetattr] and then one [tcflush] on that descriptor. *)
Theorem OpenFile_returns_configured
    (cfg : BuildConfig) (os : OS) (aFile aConfig : string) (w w' : World) (fd : Z) :
  OpenFile cfg os aFile aConfig w = Returns (fd, w') ->
  let lc := snd (sscanf_u_c_d cfg aConfig default_line) in
  fd = os_open os aFile
  /\ (fd = -1 -> w' = perror os "open uart failed" w)
  /\ (fd <> -1 -> os_isatty os fd = false -> w' = w)
  /\ (fd <> -1 -> os_isatty os fd = true ->
        os_tcgetattr os fd = 0
        /\ In (speed lc) (supported_rates cfg)
        /\ In (parity lc) ["N"; "E"; "O"]%char
        /\ In (cstopb lc) [1; 2]
        /\ os_cfsetspeed os (B cfg (speed lc)) = 0
        /\ os_tcsetattr os fd = 0
        /\ os_tcflush os fd = 0
        /\ exists tios,
             w_trace w' = (w_trace w ++ [EvTcsetattr fd tios; EvTcflush fd])%list
             /\ c_speed tios = B cfg (speed lc)).
Proof.
  intros Hrun lc. unfold OpenFile in Hrun.
  destruct (os_open os aFile =? -1) eqn:Eo.
  - apply Z.eqb_eq in Eo. cbn in Hrun. injection Hrun as <- <-.
    repeat split; auto; intros; contradiction.
  - apply Z.eqb_neq in Eo. destruct (os_isatty os (os_open os aFile)) eqn:Et.
    + destruct (os_tcgetattr os (os_open os aFile) =? 0) eqn:Ea; cbn [negb] in Hrun.
      2:{ unfold OpenFile_exit in Hrun. rewrite Ea in Hrun. discriminate. }
      apply Z.eqb_eq in Ea. fold lc in Hrun.
      apply program_line_returns in Hrun.
      destruct Hrun as (c1 & c2 & Hp & Hs & Hin & H1 & H2 & H3 & -> & ->).
      split; [reflexivity|]. split; [intros; contradiction|].
      split; [intros _ Hn; rewrite Et in Hn; discriminate|].
      intros _ _.
      apply switch_parity_returns in Hp. apply switch_cstopb_returns in Hs.
      repeat split; auto.
      * destruct Hp as [(-> & _)|[(-> & _)|(-> & _)]]; cbn; tauto.
      * destruct Hs as [(-> & _)|(-> & _)]; cbn; tauto.
      * eexists. split; [cbn; rewrite <- app_assoc; reflexivity|reflexivity].
    + cbn in Hrun. injection Hrun as <- <-.
      split; [reflexivity|]. split; [intros; contradiction|].
      split; [reflexivity|]. intros _ Hn. rewrite Et in Hn. discriminate.
Qed.

Lemma OpenFile_returns_configured_witness :
  exists w' tios,
    OpenFile (Fixture.linux true) Fixture.os0 "/dev/ttyUSB0" "9600E2" Fixture.w0
      = Returns (7, w')
    /\ w_trace w' = [EvTcsetattr 7 tios; EvTcflush 7]
    /\ c_speed tios = 13.
Proof.
  destruct (OpenFile (Fixture.linux true) Fixture.os0 "/dev/ttyUSB0" "9600E2" Fixture.w0)
    as [[fd w']| | | | |] eqn:Hrun; try discriminate.
  destruct (OpenFile_returns_configured _ _ _ _ _ _ _ Hrun) as (Hfd & _ & _ & Htty).
  cbn in Hfd. subst fd.
  destruct Htty as (_ & _ & _ & _ & _ & _ & _ & tios & Htr & Hsp);
    [discriminate|reflexivity|].
  exists w', tios. split; [reflexivity|]. split; [exact Htr|exact Hsp].
Defined.

Lemma disjoint_testbit (a b : Z) (n : Z) :
  disjoint_bits a b -> Z.testbit a n && Z.testbit b n = false.
Proof.
  unfold disjoint_bits. intros H. rewrite <- Z.land_spec, H. apply Z.bits_0.
Qed.

(** Equations between flag words, bit by bit. *)
Ltac bitwise :=
  apply Z.bits_inj'; intros ?n ?Hn;
  repeat match goal with
         | H : disjoint_bits ?a ?b |- _ =>
             match goal with
             | n : Z |- _ => apply (disjoint_testbit a b n) in H
             end
         end;
  repeat (rewrite ?Z.land_spec, ?Z.lor_spec, ?Z.bits_0;
          rewrite ?Z.lnot_spec by assumption);
  repeat match goal with
         | |- context [Z.testbit ?x ?n] => destruct (Z.testbit x n)
         end;
  cbn in *; congruence.

(** X9.  What is programmed is what was asked for.  On a platform whose
    control-mode bits are distinct, when [OpenFile] returns from a
    terminal, the flag word handed to [tcsetattr] has the second stop bit
    set exactly for a stop-bit count of 2, parity enabled exactly for the
    letters E and O, odd parity exactly for O, and the raw 8-bit mode bits
    all set; the speed is the [B] constant of the rate asked for. *)
Theorem OpenFile_programs_requested_line
    (cfg : BuildConfig) (os : OS) (aFile aConfig : string) (w w' : World) (fd : Z) :
  disjoint_bits (raw_cflag cfg) (PARENB cfg) ->
  disjoint_bits (raw_cflag cfg) (PARODD cfg) ->
  disjoint_bits (raw_cflag cfg) (CSTOPB cfg) ->
  disjoint_bits (PARENB cfg) (PARODD cfg) ->
  disjoint_bits (PARENB cfg) (CSTOPB cfg) ->
  disjoint_bits (PARODD cfg) (CSTOPB cfg) ->
  OpenFile cfg os aFile aConfig w = Returns (fd, w') ->
  fd <> -1 -> os_isatty os fd = true ->
  let lc := snd (sscanf_u_c_d cfg aConfig default_line) in
  exists tios,
    w_trace w' = (w_trace w ++ [EvTcsetattr fd tios; EvTcflush fd])%list
    /\ c_speed tios = B cfg (speed lc)
    /\ Z.land (c_cflag tios) (CSTOPB cfg) = (if cstopb lc =? 2 then CSTOPB cfg else 0)
    /\ Z.land (c_cflag tios) (PARENB cfg)
       = (if Ascii.eqb (parity lc) "N" then 0 else PARENB cfg)
    /\ Z.land (c_cflag tios) (PARODD cfg)
       = (if Ascii.eqb (parity lc) "O" then PARODD cfg else 0)
    /\ Z.land (c_cflag tios) (raw_cflag cfg) = raw_cflag cfg.
Proof.
  intros D1 D2 D3 D4 D5 D6 Hrun Hfd Htty lc. unfold OpenFile in Hrun.
  assert (Eo : (os_open os aFile =? -1) = false /\ fd = os_open os aFile).
  { destruct (os_open os aFile =? -1) eqn:Eo.
    - cbn in Hrun. injection Hrun as <- _. apply Z.eqb_eq in Eo. contradiction.
    - split; [reflexivity|].
      destruct (os_isatty os (os_open os aFile)).
      + destruct (negb (os_tcgetattr os (os_open os aFile) =? 0)) eqn:Ea.
        * unfold OpenFile_exit in Hrun. rewrite Ea in Hrun. discriminate.
        * apply program_line_returns in Hrun.
          now destruct Hrun as (_ & _ & _ & _ & _ & _ & _ & _ & -> & _).
      + cbn in Hrun. now injection Hrun as <- _. }
  destruct Eo as (Eo & ->). rewrite Eo, Htty in Hrun.
  destruct (negb (os_tcgetattr os (os_open os aFile) =? 0)) eqn:Ea.
  { unfold OpenFile_exit in Hrun. rewrite Ea in Hrun. discriminate. }
  fold lc in Hrun. apply program_line_returns in Hrun.
  destruct Hrun as (c1 & c2 & Hp & Hs & _ & _ & _ & _ & _ & ->).
  eexists. split; [cbn; rewrite <- app_assoc; reflexivity|].
  split; [reflexivity|]. cbn [c_cflag].
  apply switch_parity_returns in Hp. apply switch_cstopb_returns in Hs.
  set (raw := raw_cflag cfg) in *.
  destruct Hp as [(-> & ->)|[(-> & ->)|(-> & ->)]];
    destruct Hs as [(-> & ->)|(-> & ->)]; cbn [Ascii.eqb Bool.eqb Z.eqb Pos.eqb];
    (split; [|split; [|split]]); bitwise.
Qed.

Lemma OpenFile_programs_requested_line_witness :
  exists w' tios,
    OpenFile (Fixture.linux true) Fixture.os0 "/dev/ttyUSB0" "9600O2" Fixture.w0
      = Returns (7, w')
    /\ w_trace w' = [EvTcsetattr 7 tios; EvTcflush 7]
    /\ c_speed tios = 13
    /\ Z.land (c_cflag tios) 64 = 64
    /\ Z.land (c_cflag tios) 256 = 256
    /\ Z.land (c_cflag tios) 512 = 512.
Proof.
  destruct (OpenFile (Fixture.linux true) Fixture.os0 "/dev/ttyUSB0" "9600O2" Fixture.w0)
    as [[fd w']| | | | |] eqn:Hrun; try discriminate.
  assert (Hfd : fd = 7) by (vm_compute in Hrun; now injection Hrun as <- _).
  subst fd.
  destruct (OpenFile_programs_requested_line (Fixture.linux true) Fixture.os0
              "/dev/ttyUSB0" "9600O2" Fixture.w0 w' 7)
    as (tios & Htr & Hsp & Hstop & Hpar & Hodd & _);
    try reflexivity; try exact Hrun; try discriminate.
  exists w', tios. split; [reflexivity|]. split; [exact Htr|].
  split; [exact Hsp|]. split; [exact Hstop|]. split; [exact Hpar|exact Hodd].
Defined.

Lemma append_assoc (a b c : string) : ((a ++ b) ++ c)%string = (a ++ (b ++ c))%string.
Proof. induction a as [|x a IH]; cbn; [reflexivity|now rewrite IH]. Qed.









Lemma program_line_unsupported_parity
    (cfg : BuildConfig) (os : OS) (fd : Z) (lc : LineConfig) (w : World) :
  ~ In (parity lc) ["N"; "E"; "O"]%char ->
  terminates_process (program_line cfg os fd lc w) = true.
Proof.
  intros H. unfold program_line. rewrite switch_parity_unsupported by exact H.
  unfold assert. now destruct (NDEBUG cfg).
Qed.

(** X11.  The parity character is the one right after the rate, white
    space included: a blank between the rate and the parity letter is read
    as the parity and, on a terminal, ends the process, whatever follows
    it. *)
Theorem OpenFile_blank_after_rate_is_fatal
    (cfg : BuildConfig) (os : OS) (aFile baud rest : string) (w : World) :
  decimal_rate baud ->
  os_open os aFile <> -1 ->
  os_isatty os (os_open os aFile) = true ->
  os_tcgetattr os (os_open os aFile) = 0 ->
  parity (snd (sscanf_u_c_d cfg (baud ++ String " " rest) default_line)) = " "%char
  /\ terminates_process (OpenFile cfg os aFile (baud ++ String " " rest) w) = true.
Proof.
  intros Hbaud Hfd Htty Hattr.
  assert (Hpar : parity (snd (sscanf_u_c_d cfg (baud ++ String " " rest) default_line))
                 = " "%char).
  { unfold sscanf_u_c_d.
    rewrite (scan_integer_decimal baud (String " " rest) Hbaud eq_refl).
    now destruct (scan_integer rest) as [[[neg v] s]|]. }
  split; [exact Hpar|].
  unfold OpenFile. apply Z.eqb_neq in Hfd. rewrite Hfd, Htty, Hattr. cbn [Z.eqb negb].
  apply program_line_unsupported_parity. rewrite Hpar. cbn.
  intros [H|[H|[H|[]]]]; discriminate.
Qed.

Lemma OpenFile_blank_after_rate_is_fatal_witness :
  terminates_process
    (OpenFile (Fixture.linux true) Fixture.os0 "/dev/ttyUSB0" "115200 N1" Fixture.w0)
  = true.
Proof.
  apply (OpenFile_blank_after_rate_is_fatal (Fixture.linux true) Fixture.os0
           "/dev/ttyUSB0" "115200" "N1" Fixture.w0).
  - split; [discriminate|reflexivity].
  - discriminate.
  - reflexivity.
  - reflexivity.
Defined.

(** ** Spawning the radio process *)

(** X12.  [ForkPty] replaces the process image only in the child, after
    [setenv] succeeded, through the shell of the environment, and with the
    command line ["exec <command> <arguments>"]; that line is always
    shorter than the 255 characters of its buffer. *)
Theorem ForkPty_execs_bounded_command
    (cfg : BuildConfig) (os : OS) (aCommand aArguments shell cmd : string) (w : World) :
  ForkPty cfg os aCommand aArguments w = Execs shell cmd ->
  os_forkpty_pid os = 0
  /\ os_setenv os = 0
  /\ shell = os_getenv_SHELL os
  /\ cmd = ("exec " ++ aCommand ++ " " ++ aArguments)%string
  /\ (String.length cmd < 255)%nat.
Proof.
  unfold ForkPty. intros H.
  destruct (0 <=? os_forkpty_pid os) eqn:Ep; cbn [negb] in H; [|discriminate].
  destruct (0 =? os_forkpty_pid os) eqn:E0.
  2:{ destruct (os_fcntl_getfl os (os_forkpty_fd os) =? -1); cbn [negb] in H.
      - rewrite ?Z.eqb_refl in H. destruct (os_fcntl_getfl os (os_forkpty_fd os) =? -1);
          discriminate.
      - destruct (os_fcntl_setfl os _ _ =? -1); discriminate. }
  apply Z.eqb_eq in E0.
  destruct (os_setenv os =? 0) eqn:Es; cbn [negb] in H; [|discriminate].
  apply Z.eqb_eq in Es.
  match type of H with
  | context [if negb (?a && ?b) then _ else _] =>
      destruct a eqn:Ea; destruct b eqn:Eb; cbn [andb negb] in H; try discriminate
  end.
  destruct (os_execl_fails os); [discriminate|].
  injection H as <- <-. apply Z.ltb_lt in Eb.
  repeat split; auto. apply Nat2Z.inj_lt. exact Eb.
Qed.

Lemma ForkPty_execs_bounded_command_witness :
  let os := Fixture.with_forkpty 0 (-1) Fixture.os0 in
  ForkPty (Fixture.linux true) os "/usr/bin/ot-rcp" "1" Fixture.w0
    = Execs "/bin/sh" "exec /usr/bin/ot-rcp 1"
  /\ (String.length "exec /usr/bin/ot-rcp 1" < 255)%nat.
Proof.
  intros os. split; [reflexivity|].
  apply (ForkPty_execs_bounded_command (Fixture.linux true) os "/usr/bin/ot-rcp" "1"
           "/bin/sh" "exec /usr/bin/ot-rcp 1" Fixture.w0).
  reflexivity.
Defined.

(** X13.  In the parent, [ForkPty] always returns.  It hands back the
    master descriptor only when that descriptor could be made non-blocking,
    [O_NONBLOCK] being added to the flags it had; when either [fcntl]
    fails it closes the descriptor and returns -1, so that no descriptor is
    left behind. *)
Theorem ForkPty_parent_nonblocking_or_closed
    (cfg : BuildConfig) (os : OS) (aCommand aArguments : string) (w : World) :
  0 < os_forkpty_pid os ->
  let fd := os_forkpty_fd os in
  let flags := os_fcntl_getfl os fd in
  let set := os_fcntl_setfl os fd (Z.lor flags (O_NONBLOCK cfg)) in
  exists v w',
    ForkPty cfg os aCommand aArguments w = Returns (v, w')
    /\ ((v = fd /\ w' = w /\ flags <> -1 /\ set <> -1)
        \/ (v = -1 /\ (flags = -1 \/ set = -1)
            /\ w_trace w' = (w_trace w ++ [EvPerror "set nonblock failed"; EvClose fd])%list)).
Proof.
  intros Hpid fd flags set. unfold ForkPty. fold fd. fold flags.
  destruct (0 <=? os_forkpty_pid os) eqn:Ep; [|apply Z.leb_gt in Ep; lia].
  destruct (0 =? os_forkpty_pid os) eqn:E0; [apply Z.eqb_eq in E0; lia|].
  cbn [negb]. destruct (flags =? -1) eqn:Ef; cbn [negb].
  - rewrite Ef. apply Z.eqb_eq in Ef. do 2 eexists. split; [reflexivity|].
    right. split; [reflexivity|]. split; [now left|].
    cbn. now rewrite <- app_assoc.
  - fold set. apply Z.eqb_neq in Ef. destruct (set =? -1) eqn:Es.
    + apply Z.eqb_eq in Es. do 2 eexists. split; [reflexivity|].
      right. split; [reflexivity|]. split; [now right|].
      cbn. now rewrite <- app_assoc.
    + apply Z.eqb_neq in Es. do 2 eexists. split; [reflexivity|]. left. auto.
Qed.

Lemma ForkPty_parent_nonblocking_or_closed_witness :
  ForkPty (Fixture.linux true) Fixture.os0 "/usr/bin/ot-rcp" "1" Fixture.w0
  = Returns (8, Fixture.w0).
Proof.
  destruct (ForkPty_parent_nonblocking_or_closed (Fixture.linux true) Fixture.os0
              "/usr/bin/ot-rcp" "1" Fixture.w0)
    as (v & w' & Hrun & [(-> & -> & _)|(_ & [Hf|Hs] & _)]);
    [reflexivity|exact Hrun|discriminate|discriminate].
Defined.

Lemma trace_of_closes (ds : list Z) (w : World) :
  w_trace (fold_left (fun w' i => emit (EvClose i) w') ds w)
  = (w_trace w ++ map EvClose ds)%list.
Proof.
  revert w. induction ds as [|d ds IH]; intros w; cbn.
  - now rewrite app_nil_r.
  - rewrite IH. cbn. now rewrite <- app_assoc.
Qed.

Lemma inherited_descriptors_range (os : OS) (i : Z) :
  In i (inherited_descriptors os) <-> 3 <= i < os_rlim_cur os.
Proof.
  unfold inherited_descriptors. rewrite in_map_iff. split.
  - intros (n & <- & Hn). apply in_seq in Hn. lia.
  - intros Hi. exists (Z.to_nat (i - 3)). split; [lia|]. apply in_seq. lia.
Qed.

(** X14.  In the child, [ForkPty] does not always end the process: when
    [setenv] fails, or when the command line would take 255 characters or
    more, it comes back to its caller with whatever [forkpty] left in the
    descriptor, and nothing is executed.  In the second case it has closed
    by then the descriptors from 3 up to the limit, and those only. *)
Theorem ForkPty_child_comes_back
    (cfg : BuildConfig) (os : OS) (aCommand aArguments : string) (w : World) :
  os_forkpty_pid os = 0 ->
  let cmd := ("exec " ++ aCommand ++ " " ++ aArguments)%string in
  (os_setenv os <> 0 ->
     ForkPty cfg os aCommand aArguments w
     = Returns (os_forkpty_fd os, perror os "setenv failed" w))
  /\ (os_setenv os = 0 -> (255 <= String.length cmd)%nat ->
        exists w' closed,
          ForkPty cfg os aCommand aArguments w = Returns (os_forkpty_fd os, w')
          /\ w_trace w' = (w_trace w ++ map EvClose closed
                             ++ [EvLog "NCP file and configuration is too long!"])%list
          /\ forall i, In i closed <-> 3 <= i < os_rlim_cur os).
Proof.
  intros Hpid cmd. unfold ForkPty. rewrite Hpid. cbn [Z.leb Z.eqb Z.compare negb].
  split.
  - intros Hs. apply Z.eqb_neq in Hs. now rewrite Hs.
  - intros Hs Hlong. rewrite Hs. cbn [Z.eqb negb]. fold cmd.
    assert (Eb : (Z.of_nat (String.length cmd) <? 255) = false)
      by (apply Z.ltb_ge; lia).
    rewrite Eb, andb_false_r. cbn [negb].
    do 2 eexists. split; [reflexivity|]. split.
    + cbn. rewrite trace_of_closes, <- app_assoc. reflexivity.
    + apply inherited_descriptors_range.
Qed.

Lemma ForkPty_child_comes_back_witness :
  let os := Fixture.with_forkpty 0 (-1) Fixture.os0 in
  exists w',
    ForkPty (Fixture.linux true) os "/usr/bin/ot-rcp"
      (string_of_list_ascii (repeat "x"%char 250)) Fixture.w0
    = Returns (-1, w').
Proof.
  intros os.
  destruct (ForkPty_child_comes_back (Fixture.linux true) os "/usr/bin/ot-rcp"
              (string_of_list_ascii (repeat "x"%char 250)) Fixture.w0)
    as (_ & Hlong); [reflexivity|].
  destruct Hlong as (w' & closed & Hrun & _); [reflexivity|vm_compute; lia|].
  exists w'. exact Hrun.
Defined.

Lemma ForkPty_returns_value
    (cfg : BuildConfig) (os : OS) (aCommand aArguments : string) (w w' : World) (v : Z) :
  ForkPty cfg os aCommand aArguments w = Returns (v, w') ->
  v = os_forkpty_fd os \/ v = -1.
Proof.
  unfold ForkPty. intros Hrun.
  destruct (negb (0 <=? os_forkpty_pid os)); [injection Hrun as <- _; now left|].
  destruct (0 =? os_forkpty_pid os).
  - destruct (negb (os_setenv os =? 0)); [injection Hrun as <- _; now left|].
    match type of Hrun with
    | context [if negb ?c then _ else _] => destruct (negb c)
    end; [injection Hrun as <- _; now left|].
    destruct (os_execl_fails os); discriminate.
  - match type of Hrun with
    | context [if ?c =? -1 then _ else _] => destruct (c =? -1)
    end; injection Hrun as <- _; auto.
Qed.

Lemma OpenFile_returns_open
    (cfg : BuildConfig) (os : OS) (aFile aConfig : string) (w w' : World) (fd : Z) :
  OpenFile cfg os aFile aConfig w = Returns (fd, w') -> fd = os_open os aFile.
Proof.
  unfold OpenFile. intros Hrun.
  destruct (os_open os aFile =? -1) eqn:Eo.
  - apply Z.eqb_eq in Eo. cbn in Hrun. now injection Hrun as <- _.
  - destruct (os_isatty os (os_open os aFile)).
    + destruct (negb (os_tcgetattr os (os_open os aFile) =? 0)) eqn:Ea.
      * unfold OpenFile_exit in Hrun. rewrite Ea in Hrun. discriminate.
      * apply program_line_returns in Hrun.
        now destruct Hrun as (_ & _ & _ & _ & _ & _ & _ & _ & -> & _).
    + cbn in Hrun. now injection Hrun as <- _.
Qed.

(** X6.  Whenever [Init] returns [OT_ERROR_NONE], the manager was closed
    before and is open after, on the descriptor that [OpenFile] or [ForkPty]
    handed back, and any further [Init] on it answers [OT_ERROR_ALREADY]
    without touching it. *)
Theorem Init_success_opens
    (cfg : BuildConfig) (os os2 : OS) (dec : HdlcDecoder) (st st' : HdlcInterface dec)
    (aRadioFile aRadioConfig file2 config2 : string) (w w' w2 : World) :
  Init cfg os dec st aRadioFile aRadioConfig w = Returns (OT_ERROR_NONE, st', w') ->
  mSockFd st = -1
  /\ mSockFd st' <> -1
  /\ (mSockFd st' = os_open os aRadioFile \/ mSockFd st' = os_forkpty_fd os)
  /\ mIsDecoding st' = mIsDecoding st
  /\ Init cfg os2 dec st' file2 config2 w2 = Returns (OT_ERROR_ALREADY, st', w2).
Proof.
  intros Hrun.
  assert (Hclosed : mSockFd st = -1).
  { unfold Init in Hrun. destruct (mSockFd st =? -1) eqn:E.
    - now apply Z.eqb_eq in E.
    - discriminate. }
  destruct (Init_closed_not_already cfg os dec st st' _ _ w w' _ Hclosed Hrun)
    as (_ & Hopen). specialize (Hopen eq_refl).
  split; [exact Hclosed|]. split; [exact Hopen|].
  assert (Hshape :
            (exists fd w1, OpenFile cfg os aRadioFile aRadioConfig w = Returns (fd, w1)
                           /\ st' = set_mSockFd dec fd st)
            \/ (exists fd w1, ForkPty cfg os aRadioFile aRadioConfig w = Returns (fd, w1)
                              /\ st' = set_mSockFd dec fd st)).
  { unfold Init in Hrun. rewrite Hclosed in Hrun. cbn [Z.eqb negb] in Hrun.
    destruct (os_stat os aRadioFile) as [[| |]|]; try discriminate.
    - left. destruct (OpenFile cfg os aRadioFile aRadioConfig w) as [[fd w1]| | | | |];
        try discriminate.
      cbn in Hrun. destruct (negb (fd =? -1)); [|discriminate].
      injection Hrun as <- _. eauto.
    - right. destruct (OPENTHREAD_CONFIG_POSIX_APP_ENABLE_PTY_DEVICE cfg);
        [|discriminate].
      destruct (ForkPty cfg os aRadioFile aRadioConfig w) as [[fd w1]| | | | |];
        try discriminate.
      cbn in Hrun. destruct (negb (fd =? -1)); [|discriminate].
      injection Hrun as <- _. eauto. }
  split; [|split].
  - destruct Hshape as [(fd & w1 & Hf & ->)|(fd & w1 & Hf & ->)]; cbn.
    + left. eapply OpenFile_returns_open; eauto.
    + right. apply ForkPty_returns_value in Hf. destruct Hf as [ -> | -> ]; [reflexivity|].
      cbn in Hopen. contradiction.
  - destruct Hshape as [(fd & w1 & _ & ->)|(fd & w1 & _ & ->)]; reflexivity.
  - unfold Init. apply Z.eqb_neq in Hopen. now rewrite Hopen.
Qed.

Lemma Init_success_opens_witness :
  exists st' w',
    Init (Fixture.linux true) Fixture.os0 Fixture.dec0 (Fixture.manager (-1))
      "/dev/ttyUSB0" "115200N1" Fixture.w0 = Returns (OT_ERROR_NONE, st', w')
    /\ mSockFd st' = 7
    /\ Init (Fixture.linux true) Fixture.os0 Fixture.dec0 st'
         "/dev/ttyUSB1" "9600E2" w' = Returns (OT_ERROR_ALREADY, st', w').
Proof.
  destruct (Init (Fixture.linux true) Fixture.os0 Fixture.dec0 (Fixture.manager (-1))
              "/dev/ttyUSB0" "115200N1" Fixture.w0)
    as [[[err st'] w']| | | | |] eqn:Hrun; try discriminate.
  assert (Herr : err = OT_ERROR_NONE /\ mSockFd st' = 7).
  { vm_compute in Hrun. injection Hrun as <- <- _. split; reflexivity. }
  destruct Herr as (-> & Hfd). exists st', w'. split; [reflexivity|].
  split; [exact Hfd|].
  apply (Init_success_opens (Fixture.linux true) Fixture.os0 Fixture.os0 Fixture.dec0
           (Fixture.manager (-1)) st' "/dev/ttyUSB0" "115200N1" "/dev/ttyUSB1" "9600E2"
           Fixture.w0 w' w' Hrun).
Defined.

(** ** The receive side *)

Lemma bind_returns {A B : Type} (m : outcome A) (k : A -> outcome B) (b : B) :
  bind m k = Returns b -> exists a, m = Returns a /\ k a = Returns b.
Proof. destruct m; cbn; try discriminate. eauto. Qed.

Lemma Decoder_feed_app (dec : HdlcDecoder) (d : DecoderState dec) (a b : list byte) :
  Decoder_feed dec d (a ++ b) = Decoder_feed dec (Decoder_feed dec d a) b.
Proof. unfold Decoder_feed. apply fold_left_app. Qed.

Lemma Decoder_frames_app (dec : HdlcDecoder) (a b : list byte) :
  forall d,
    Decoder_frames dec d (a ++ b)
    = (Decoder_frames dec d a ++ Decoder_frames dec (Decoder_feed dec d a) b)%list.
Proof.
  induction a as [|x a IH]; intros d; [reflexivity|].
  cbn. destruct (Decoder_byte dec d x) as [d' call]. cbn [fst].
  fold (Decoder_feed dec d' a).
  destruct call as [[frame|err frame]|]; cbn; now rewrite IH.
Qed.

Section QuietDelivery.

Variable cfg : BuildConfig.
Variable os : OS.
Variable enc : HdlcEncoder.
Variable dec : HdlcDecoder.
Variable mCallbacks : Callbacks.
Variable nested : HdlcInterface dec * World -> outcome (HdlcInterface dec * World).

Hypothesis quiet : forall frame, mCallbacks frame = [].

Lemma Decoder_Decode_quiet_frames :
  forall bytes st w,
    mIsDecoding st = true ->
    exists w' evs,
      Decoder_Decode cfg os enc dec mCallbacks nested bytes (st, w) =
        Returns (set_mHdlcDecoder dec (Decoder_feed dec (mHdlcDecoder st) bytes) st, w')
      /\ w_trace w' = (w_trace w ++ evs)%list
      /\ Forall callback_event evs
      /\ frames_entered evs = Decoder_frames dec (mHdlcDecoder st) bytes
      /\ w_nread w' = w_nread w.
Proof.
  induction bytes as [|b bytes IH]; intros st w Hflag.
  - exists w, []. cbn. rewrite set_mHdlcDecoder_same, app_nil_r. auto.
  - cbn [Decoder_Decode Decoder_feed fold_left Decoder_frames].
    destruct (Decoder_byte dec (mHdlcDecoder st) b) as [d call] eqn:Hb.
    cbn [fst].
    set (st1 := set_mHdlcDecoder dec d st).
    assert (Hflag1 : mIsDecoding st1 = true) by exact Hflag.
    destruct call as [[frame|err frame]|].
    + unfold HandleHdlcFrame. rewrite quiet. cbn [run_listener bind].
      rewrite Hflag1.
      destruct (IH st1 (emit (EvFrameLeave true) (emit (EvFrameEnter frame true) w)) Hflag1)
        as (w' & evs & Hrun & Htr & Hev & Hfr & Hn).
      exists w', (EvFrameEnter frame true :: EvFrameLeave true :: evs).
      rewrite Hrun. cbn in Htr, Hn, Hfr |- *. split; [reflexivity|].
      split; [now rewrite Htr, <- !app_assoc|].
      split; [repeat constructor; assumption|].
      split; [now rewrite Hfr|exact Hn].
    + unfold HandleHdlcError. cbn [bind].
      destruct (IH st1 (otLogWarnPlat "Error decoding hdlc frame" w) Hflag1)
        as (w' & evs & Hrun & Htr & Hev & Hfr & Hn).
      exists w', (EvLog "Error decoding hdlc frame" :: evs).
      rewrite Hrun. cbn in Htr, Hn, Hfr |- *. split; [reflexivity|].
      split; [now rewrite Htr, <- !app_assoc|].
      split; [constructor; [exact I|assumption]|].
      split; [exact Hfr|exact Hn].
    + cbn [bind].
      destruct (IH st1 w Hflag1) as (w' & evs & Hrun & Htr & Hev & Hfr & Hn).
      exists w', evs. rewrite Hrun. cbn in Hfr |- *. auto.
Qed.

End QuietDelivery.

(** A cycle whose [read] brought data, with a listener that leaves the
    driver alone. *)
Lemma Read_quiet_data
    (cfg : BuildConfig) (os : OS) (enc : HdlcEncoder) (dec : HdlcDecoder)
    (cb : Callbacks)
    (depth : nat) (st : HdlcInterface dec) (w : World) :
  (forall frame, cb frame = []) ->
  let r := os_read os (w_nread w) (mSockFd st) (kMaxFrameSize cfg) in
  let bytes := firstn (Z.to_nat (r_rval r)) (r_buffer r) in
  0 < r_rval r <= kMaxFrameSize cfg -> kMaxFrameSize cfg < 2 ^ 16 ->
  exists w' evs,
    Read cfg os enc dec cb (S depth) (st, w) =
      Returns (set_mIsDecoding dec false
                 (set_mHdlcDecoder dec (Decoder_feed dec (mHdlcDecoder st) bytes) st), w')
    /\ w_trace w' = (w_trace w ++ evs)%list
    /\ frames_entered evs = Decoder_frames dec (mHdlcDecoder st) bytes
    /\ guarded 0 evs = true
    /\ w_nread w' = S (w_nread w).
Proof.
  intros Hquiet r bytes Hrv Hmax. cbn [Read]. unfold Read_body, sys_read. fold r.
  destruct (r_rval r <? 0) eqn:Eneg; [apply Z.ltb_lt in Eneg; lia|].
  cbn [bind]. destruct (0 <? r_rval r) eqn:Epos; [|apply Z.ltb_ge in Epos; lia].
  rewrite uint16_t_small by lia. unfold Decode. fold bytes.
  match goal with
  | |- context [Decoder_Decode cfg os enc dec cb ?n bytes (?s1, ?w1)] =>
      destruct (Decoder_Decode_quiet_frames cfg os enc dec cb n Hquiet bytes s1 w1 eq_refl)
        as (w' & evs & Hrun & Htr & Hev & Hfr & Hn)
  end.
  rewrite Hrun. cbn [bind].
  exists w', (EvRead (mSockFd st) (kMaxFrameSize cfg) (r_rval r) :: EvDecode bytes :: evs).
  cbn in Htr, Hn, Hfr |- *. split; [reflexivity|].
  split; [now rewrite Htr, <- !app_assoc|].
  split; [exact Hfr|]. split; [now apply guarded_callbacks|exact Hn].
Qed.

(** X15.  Delivery of frames: when a [read] brings data and the listener
    leaves the driver alone, the listener is handed the frames the decoder
    completes on those bytes, each once and in the order the decoder
    completes them, and it is not called for anything else: a decoding
    error only reaches the log. *)
Theorem Read_delivers_frames_in_order
    (cfg : BuildConfig) (os : OS) (enc : HdlcEncoder) (dec : HdlcDecoder)
    (cb : Callbacks)
    (depth : nat) (st : HdlcInterface dec) (w : World) :
  (forall frame, cb frame = []) ->
  let r := os_read os (w_nread w) (mSockFd st) (kMaxFrameSize cfg) in
  let bytes := firstn (Z.to_nat (r_rval r)) (r_buffer r) in
  0 < r_rval r <= kMaxFrameSize cfg -> kMaxFrameSize cfg < 2 ^ 16 ->
  exists st' w' evs,
    Read cfg os enc dec cb (S depth) (st, w) = Returns (st', w')
    /\ w_trace w' = (w_trace w ++ evs)%list
    /\ frames_entered evs = Decoder_frames dec (mHdlcDecoder st) bytes.
Proof.
  intros Hquiet r bytes Hrv Hmax.
  destruct (Read_quiet_data cfg os enc dec cb depth st w Hquiet Hrv Hmax)
    as (w' & evs & Hrun & Htr & Hfr & _).
  do 3 eexists. split; [exact Hrun|]. split; [exact Htr|exact Hfr].
Qed.

(** Two frames and the start of a third in one read. *)
Lemma Read_delivers_frames_in_order_witness :
  exists st' w' evs,
    Read (Fixture.linux true) Fixture.os_frames Fixture.enc0 Fixture.dec0 Fixture.quiet 1
      (Fixture.manager 7, Fixture.w0) = Returns (st', w')
    /\ w_trace w' = evs
    /\ frames_entered evs = [["001"]; ["002"; "003"]]%byte.
Proof.
  destruct (Read_delivers_frames_in_order (Fixture.linux true) Fixture.os_frames
              Fixture.enc0 Fixture.dec0 Fixture.quiet 0 (Fixture.manager 7) Fixture.w0)
    as (st' & w' & evs & Hrun & Htr & Hfr).
  - reflexivity.
  - cbn. lia.
  - cbn. lia.
  - exists st', w', evs. split; [exact Hrun|]. split; [exact Htr|exact Hfr].
Defined.

(** X16.  The decoder does not see where one read ends and the next
    begins: after two cycles that each brought data, with a listener that
    leaves the driver alone, the decoder is in the state the bytes of the
    first read followed by those of the second take it to, and the listener
    has been handed the frames the decoder completes on that one
    sequence. *)
Theorem Read_twice_is_one_stream
    (cfg : BuildConfig) (os : OS) (enc : HdlcEncoder) (dec : HdlcDecoder)
    (cb : Callbacks)
    (st : HdlcInterface dec) (w : World) :
  (forall frame, cb frame = []) ->
  let fd := mSockFd st in
  let r1 := os_read os (w_nread w) fd (kMaxFrameSize cfg) in
  let r2 := os_read os (S (w_nread w)) fd (kMaxFrameSize cfg) in
  let bytes1 := firstn (Z.to_nat (r_rval r1)) (r_buffer r1) in
  let bytes2 := firstn (Z.to_nat (r_rval r2)) (r_buffer r2) in
  0 < r_rval r1 <= kMaxFrameSize cfg ->
  0 < r_rval r2 <= kMaxFrameSize cfg ->
  kMaxFrameSize cfg < 2 ^ 16 ->
  exists st2 w2 evs,
    bind (Read cfg os enc dec cb 1 (st, w)) (Read cfg os enc dec cb 1) = Returns (st2, w2)
    /\ mHdlcDecoder st2 = Decoder_feed dec (mHdlcDecoder st) (bytes1 ++ bytes2)
    /\ w_trace w2 = (w_trace w ++ evs)%list
    /\ frames_entered evs = Decoder_frames dec (mHdlcDecoder st) (bytes1 ++ bytes2).
Proof.
  intros Hquiet fd r1 r2 bytes1 bytes2 H1 H2 Hmax.
  destruct (Read_quiet_data cfg os enc dec cb 0 st w Hquiet H1 Hmax)
    as (w1 & evs1 & Hrun1 & Htr1 & Hfr1 & _ & Hn1).
  fold fd r1 bytes1 in Hrun1, Hfr1. rewrite Hrun1. cbn [bind].
  match goal with
  | |- context [Read cfg os enc dec cb 1 (?s1, w1)] => set (st1 := s1) in *
  end.
  assert (Hr2 : os_read os (w_nread w1) (mSockFd st1) (kMaxFrameSize cfg) = r2)
    by (rewrite Hn1; reflexivity).
  assert (H2' : 0 < r_rval (os_read os (w_nread w1) (mSockFd st1) (kMaxFrameSize cfg))
                <= kMaxFrameSize cfg) by (rewrite Hr2; exact H2).
  destruct (Read_quiet_data cfg os enc dec cb 0 st1 w1 Hquiet H2' Hmax)
    as (w2 & evs2 & Hrun2 & Htr2 & Hfr2 & _ & _).
  rewrite Hr2 in Hrun2, Hfr2. fold bytes2 in Hrun2, Hfr2.
  rewrite Hrun2. do 3 eexists. split; [reflexivity|]. cbn [mHdlcDecoder].
  split; [|split].
  - now rewrite Decoder_feed_app.
  - rewrite Htr2, Htr1, <- app_assoc. reflexivity.
  - assert (Happ : forall a b, frames_entered (a ++ b)
                               = (frames_entered a ++ frames_entered b)%list).
    { induction a as [|e a IH]; intros b; [reflexivity|].
      destruct e; cbn; now rewrite IH. }
    rewrite Happ, Hfr1, Hfr2, Decoder_frames_app. reflexivity.
Qed.

(** A frame split over two reads is delivered whole after the second. *)
Lemma Read_twice_is_one_stream_witness :
  exists st2 w2 evs,
    bind (Read (Fixture.linux true) Fixture.os_split_frame Fixture.enc0 Fixture.dec0 Fixture.quiet 1
            (Fixture.manager 7, Fixture.w0))
         (Read (Fixture.linux true) Fixture.os_split_frame Fixture.enc0 Fixture.dec0 Fixture.quiet 1)
      = Returns (st2, w2)
    /\ w_trace w2 = evs
    /\ frames_entered evs = [["001"; "002"; "003"]]%byte.
Proof.
  destruct (Read_twice_is_one_stream (Fixture.linux true) Fixture.os_split_frame
              Fixture.enc0 Fixture.dec0 Fixture.quiet (Fixture.manager 7) Fixture.w0)
    as (st2 & w2 & evs & Hrun & _ & Htr & Hfr).
  - reflexivity.
  - cbn. lia.
  - cbn. lia.
  - cbn. lia.
  - exists st2, w2, evs. split; [exact Hrun|]. split; [exact Htr|exact Hfr].
Defined.

Lemma receive_only_refl (dec : HdlcDecoder) (sw : HdlcInterface dec * World) :
  receive_only sw sw.
Proof.
  unfold receive_only. repeat split; auto. exists []. now rewrite app_nil_r.
Qed.

Lemma receive_only_trans (dec : HdlcDecoder) (a b c : HdlcInterface dec * World) :
  receive_only a b -> receive_only b c -> receive_only a c.
Proof.
  unfold receive_only. intros (H1 & H2 & H3 & e1 & H4) (K1 & K2 & K3 & e2 & K4).
  repeat split; try congruence.
  exists (e1 ++ e2)%list. now rewrite K4, H4, app_assoc.
Qed.

Lemma receive_only_emit (dec : HdlcDecoder) (st : HdlcInterface dec) (w : World)
    (e : Event) :
  receive_only (st, w) (st, emit e w).
Proof.
  unfold receive_only. cbn. repeat split; auto. now exists [e].
Qed.

Section ReadingListener.

Variable cfg : BuildConfig.
Variable os : OS.
Variable enc : HdlcEncoder.
Variable dec : HdlcDecoder.
Variable mCallbacks : Callbacks.
Variable nested : HdlcInterface dec * World -> outcome (HdlcInterface dec * World).

(** The listener calls nothing but [Read], and what it reaches that way is
    itself a read/decode cycle. *)
Hypothesis listener_reads_only : reads_only mCallbacks.

Hypothesis nested_receive_only :
  forall sw sw', nested sw = Returns sw' -> receive_only sw sw'.

Lemma run_listener_receive_only :
  forall calls sw sw',
    (forall c, In c calls -> c = CallRead) ->
    run_listener cfg os enc dec nested calls sw = Returns sw' -> receive_only sw sw'.
Proof.
  induction calls as [|c calls IH]; intros sw sw' Hcalls H; cbn in H.
  - injection H as <-. apply receive_only_refl.
  - apply bind_returns in H. destruct H as (sw1 & Hn & Hrest).
    rewrite (Hcalls c (or_introl eq_refl)) in Hn. destruct sw as [st w]. cbn in Hn.
    apply (receive_only_trans dec (st, w) sw1 sw');
      [apply nested_receive_only; exact Hn|].
    apply IH; [|exact Hrest]. intros c' Hc'. apply Hcalls. now right.
Qed.

Lemma HandleHdlcFrame_receive_only (frame : list byte) :
  forall sw sw',
    HandleHdlcFrame cfg os enc dec mCallbacks nested frame sw = Returns sw' ->
    receive_only sw sw'.
Proof.
  intros [st w] sw' H. unfold HandleHdlcFrame in H.
  apply bind_returns in H. destruct H as ([st1 w1] & Hl & Hret).
  injection Hret as <-.
  apply run_listener_receive_only in Hl; [|apply listener_reads_only].
  eapply receive_only_trans; [apply receive_only_emit|].
  eapply receive_only_trans; [exact Hl|apply receive_only_emit].
Qed.

Lemma Decoder_Decode_receive_only :
  forall bytes sw sw',
    Decoder_Decode cfg os enc dec mCallbacks nested bytes sw = Returns sw' ->
    receive_only sw sw'.
Proof.
  induction bytes as [|b bytes IH]; intros [st w] sw' H.
  - injection H as <-. apply receive_only_refl.
  - cbn [Decoder_Decode] in H.
    destruct (Decoder_byte dec (mHdlcDecoder st) b) as [d call].
    apply bind_returns in H. destruct H as (sw1 & Hcall & Hrest).
    apply IH in Hrest.
    assert (Hstep : receive_only (st, w) sw1).
    { destruct call as [[frame|err frame]|].
      - apply HandleHdlcFrame_receive_only in Hcall.
        unfold receive_only in *. cbn in *. exact Hcall.
      - injection Hcall as <-. unfold receive_only. cbn.
        repeat split; auto. now eexists.
      - injection Hcall as <-. unfold receive_only. cbn.
        repeat split; auto. exists []. now rewrite app_nil_r. }
    exact (receive_only_trans dec (st, w) sw1 sw' Hstep Hrest).
Qed.

Lemma Decode_receive_only (aBuffer : list byte) (len : Z) :
  forall sw sw',
    Decode cfg os enc dec mCallbacks nested aBuffer len sw = Returns sw' ->
    receive_only sw sw'.
Proof.
  intros [st w] sw' H. unfold Decode in H.
  apply bind_returns in H. destruct H as ([st1 w1] & Hd & Hret).
  injection Hret as <-. apply Decoder_Decode_receive_only in Hd.
  unfold receive_only in *. cbn in *. destruct Hd as (H1 & H2 & H3 & evs & H4).
  repeat split; auto. eexists. rewrite H4, <- app_assoc. reflexivity.
Qed.

End ReadingListener.

(** Whatever the listener does, [Decode] comes back with the flag down. *)
Lemma Decode_lowers_flag
    (cfg : BuildConfig) (os : OS) (enc : HdlcEncoder) (dec : HdlcDecoder)
    (cb : Callbacks)
    (nested : HdlcInterface dec * World -> outcome (HdlcInterface dec * World))
    (aBuffer : list byte) (len : Z) (sw sw' : HdlcInterface dec * World) :
  Decode cfg os enc dec cb nested aBuffer len sw = Returns sw' ->
  mIsDecoding (fst sw') = false.
Proof.
  destruct sw as [st w]. unfold Decode. intros H.
  apply bind_returns in H. destruct H as ([st1 w1] & _ & Hret).
  now injection Hret as <-.
Qed.

Lemma Read_body_cases
    (cfg : BuildConfig) (os : OS) (enc : HdlcEncoder) (dec : HdlcDecoder)
    (cb : Callbacks)
    (nested : HdlcInterface dec * World -> outcome (HdlcInterface dec * World))
    (st : HdlcInterface dec) (w : World) (sw' : HdlcInterface dec * World) :
  Read_body cfg os enc dec cb nested (st, w) = Returns sw' ->
  let r := os_read os (w_nread w) (mSockFd st) (kMaxFrameSize cfg) in
  exists w3,
    receive_only (st, w) (st, w3)
    /\ ((0 < r_rval r
         /\ Decode cfg os enc dec cb nested (r_buffer r) (uint16_t (r_rval r)) (st, w3)
            = Returns sw')
        \/ (r_rval r <= 0 /\ sw' = (st, w3))).
Proof.
  intros H r. unfold Read_body, sys_read in H. fold r in H.
  apply bind_returns in H. destruct H as (w3 & Hw3 & Hrest). exists w3. split.
  - unfold receive_only. cbn. destruct (r_rval r <? 0).
    + cbn in Hw3. destruct (negb (os_perror os (r_errno r) =? EAGAIN cfg));
        [discriminate|].
      injection Hw3 as <-. cbn. repeat split; auto.
      eexists. rewrite <- app_assoc. reflexivity.
    + injection Hw3 as <-. cbn. repeat split; auto. now eexists.
  - destruct (0 <? r_rval r) eqn:Epos.
    + left. apply Z.ltb_lt in Epos. auto.
    + right. apply Z.ltb_ge in Epos. injection Hrest as <-. auto.
Qed.

(** X17.  A read/decode cycle that returns after its own [read] brought
    data returns with the decoding flag down, whatever the listener did
    from its callbacks.  And as long as the listener calls nothing but
    [Read] from its callbacks, nested calls included, a cycle that returns
    has left the descriptor of the manager and the transmit side of the
    channel alone: no [write] was issued, nothing was sent, and the trace
    has only grown. *)
Theorem Read_is_receive_only
    (cfg : BuildConfig) (os : OS) (enc : HdlcEncoder) (dec : HdlcDecoder)
    (cb : Callbacks)
    (depth : nat) (st st' : HdlcInterface dec) (w w' : World) :
  Read cfg os enc dec cb depth (st, w) = Returns (st', w') ->
  (0 < r_rval (os_read os (w_nread w) (mSockFd st) (kMaxFrameSize cfg)) ->
   mIsDecoding st' = false)
  /\ (reads_only cb ->
      mSockFd st' = mSockFd st
      /\ w_tx w' = w_tx w
      /\ w_nwrite w' = w_nwrite w
      /\ exists evs, w_trace w' = (w_trace w ++ evs)%list).
Proof.
  intros Hrun. split.
  - destruct depth as [|d]; [discriminate|]. cbn [Read] in Hrun.
    apply Read_body_cases in Hrun. destruct Hrun as (w3 & _ & [(_ & Hd)|(Hle & _)]).
    + intros _. now apply Decode_lowers_flag in Hd.
    + intros Hpos. lia.
  - intros Hreads.
    assert (Hall : forall d sw sw',
               Read cfg os enc dec cb d sw = Returns sw' -> receive_only sw sw').
    { induction d as [|d IH]; intros [s0 w0] sw' H; [discriminate|].
      cbn [Read] in H. apply Read_body_cases in H.
      destruct H as (w3 & Hsw & [(_ & Hd)|(_ & ->)]); [|exact Hsw].
      apply (Decode_receive_only cfg os enc dec cb _ Hreads IH) in Hd.
      exact (receive_only_trans dec (s0, w0) (s0, w3) sw' Hsw Hd). }
    apply Hall in Hrun. exact Hrun.
Qed.

(** The listener that calls [Read] from its callback. *)
Lemma Read_is_receive_only_witness :
  exists st' w',
    Read (Fixture.linux true) Fixture.os_two_reads Fixture.enc0 Fixture.dec0
      Fixture.reentrant 2 (Fixture.manager 7, Fixture.w0) = Returns (st', w')
    /\ mSockFd st' = 7 /\ w_tx w' = [] /\ mIsDecoding st' = false.
Proof.
  destruct (Read (Fixture.linux true) Fixture.os_two_reads Fixture.enc0 Fixture.dec0
              Fixture.reentrant 2 (Fixture.manager 7, Fixture.w0))
    as [[st' w']| | | | |] eqn:Hrun; try discriminate.
  destruct (Read_is_receive_only _ _ _ _ _ _ _ _ _ _ Hrun) as (Hflag & Hro).
  destruct Hro as (Hfd & Htx & _).
  { intros frame c [<-|[]]. reflexivity. }
  exists st', w'. split; [reflexivity|]. split; [exact Hfd|]. split; [exact Htx|].
  apply Hflag. cbn. lia.
Defined.

(** ** The defaults of the line parameters *)

Lemma sscanf_keeps_defaults (cfg : BuildConfig) (aConfig : string) :
  let n := fst (sscanf_u_c_d cfg aConfig default_line) in
  let lc := snd (sscanf_u_c_d cfg aConfig default_line) in
  ((n < 1)%nat -> speed lc = 115200)
  /\ ((n < 2)%nat -> parity lc = "N"%char)
  /\ ((n < 3)%nat -> cstopb lc = 1).
Proof.
  cbn zeta. unfold sscanf_u_c_d.
  destruct (scan_integer aConfig) as [[[neg v] [|c s2]]|]; cbn.
  - repeat split; auto; lia.
  - destruct (scan_integer s2) as [[[neg' v'] s3]|]; cbn; repeat split; auto; lia.
  - repeat split; auto.
Qed.

(** With supported parameters and calls that succeed, the line is
    programmed: one [tcsetattr] with the flag word the two [switch]
    statements leave and the speed constant of the rate, then one
    [tcflush]. *)
Lemma program_line_succeeds
    (cfg : BuildConfig) (os : OS) (fd : Z) (lc : LineConfig) (w : World) :
  In (speed lc) (supported_rates cfg) ->
  In (parity lc) ["N"; "E"; "O"]%char ->
  In (cstopb lc) [1; 2] ->
  os_cfsetspeed os (B cfg (speed lc)) = 0 ->
  os_tcsetattr os fd = 0 ->
  os_tcflush os fd = 0 ->
  exists c1 c2,
    switch_parity cfg (parity lc) (raw_cflag cfg) = Returns c1
    /\ switch_cstopb cfg (cstopb lc) c1 = Returns c2
    /\ program_line cfg os fd lc w
       = Returns (fd, emit (EvTcflush fd)
                        (emit (EvTcsetattr fd {| c_cflag := c2;
                                                 c_speed := B cfg (speed lc) |}) w)).
Proof.
  intros Hs Hp Hc H1 H2 H3. unfold program_line. fold (raw_cflag cfg).
  destruct (switch_parity_cases cfg (parity lc) (raw_cflag cfg) Hp) as (c1 & Hc1).
  destruct (switch_cstopb_cases cfg (cstopb lc) c1 Hc) as (c2 & Hc2).
  exists c1, c2. split; [exact Hc1|]. split; [exact Hc2|].
  rewrite Hc1. cbn [bind]. rewrite Hc2. cbn [bind].
  rewrite (switch_speed_supported cfg _ Hs). cbn [bind].
  unfold OpenFile_exit. now rewrite H1, H2, H3.
Qed.

(** C6.  A field the configuration string leaves unspecified is programmed
    with its default.  The fields [sscanf] does not reach are unspecified:
    all three for the empty string, parity and stop bits for a rate alone,
    the stop bits for a rate and a parity letter.  On a terminal whose
    attributes could be read, when the fields that are specified are
    supported and the calls that program the line succeed, [OpenFile]
    returns after one [tcsetattr], and what that call programs has, for
    each field left unspecified, the default: the speed constant of 115200
    baud, no parity bit, the second stop bit cleared. *)
Theorem OpenFile_unspecified_fields_default
    (cfg : BuildConfig) (os : OS) (aFile aConfig : string) (w : World) :
  let fd := os_open os aFile in
  let n := fst (sscanf_u_c_d cfg aConfig default_line) in
  let lc := snd (sscanf_u_c_d cfg aConfig default_line) in
  (aConfig = EmptyString -> n = 0%nat)
  /\ (forall baud, decimal_rate baud -> aConfig = baud -> n = 1%nat)
  /\ (forall baud letter,
        decimal_rate baud -> digit_of letter = None ->
        aConfig = (baud ++ String letter EmptyString)%string ->
        n = 2%nat /\ parity lc = letter)
  /\ (fd <> -1 -> os_isatty os fd = true -> os_tcgetattr os fd = 0 ->
      ((1 <= n)%nat -> In (speed lc) (supported_rates cfg)) ->
      ((2 <= n)%nat -> In (parity lc) ["N"; "E"; "O"]%char) ->
      ((3 <= n)%nat -> In (cstopb lc) [1; 2]) ->
      os_cfsetspeed os (B cfg (speed lc)) = 0 ->
      os_tcsetattr os fd = 0 ->
      os_tcflush os fd = 0 ->
      disjoint_bits (raw_cflag cfg) (PARENB cfg) ->
      disjoint_bits (raw_cflag cfg) (PARODD cfg) ->
      disjoint_bits (PARENB cfg) (CSTOPB cfg) ->
      disjoint_bits (PARODD cfg) (CSTOPB cfg) ->
      exists tios w',
        OpenFile cfg os aFile aConfig w = Returns (fd, w')
        /\ w_trace w' = (w_trace w ++ [EvTcsetattr fd tios; EvTcflush fd])%list
        /\ ((n < 1)%nat -> c_speed tios = B cfg 115200)
        /\ ((n < 2)%nat ->
            Z.land (c_cflag tios) (PARENB cfg) = 0
            /\ Z.land (c_cflag tios) (PARODD cfg) = 0)
        /\ ((n < 3)%nat -> Z.land (c_cflag tios) (CSTOPB cfg) = 0)).
Proof.
  intros fd n lc.
  split. { intros ->. reflexivity. }
  split.
  { intros baud Hbaud ->. subst n. unfold sscanf_u_c_d.
    pose proof (scan_integer_decimal baud "" Hbaud I) as Hscan.
    rewrite append_empty in Hscan. now rewrite Hscan. }
  split.
  { intros baud letter Hbaud Hletter ->. subst n lc. unfold sscanf_u_c_d.
    rewrite (scan_integer_decimal baud (String letter "") Hbaud Hletter).
    split; reflexivity. }
  intros Hfd Htty Hattr Hspeed Hparity Hstop H1 H2 H3 D1 D2 D3 D4.
  destruct (sscanf_keeps_defaults cfg aConfig) as (Ks & Kp & Kc).
  fold n lc in Ks, Kp, Kc.
  assert (Hs : In (speed lc) (supported_rates cfg)).
  { destruct (Nat.lt_ge_cases n 1) as [Hlt|Hge]; [|now apply Hspeed].
    rewrite (Ks Hlt). unfold supported_rates. apply in_or_app. left. cbn. tauto. }
  assert (Hp : In (parity lc) ["N"; "E"; "O"]%char).
  { destruct (Nat.lt_ge_cases n 2) as [Hlt|Hge]; [|now apply Hparity].
    rewrite (Kp Hlt). now left. }
  assert (Hc : In (cstopb lc) [1; 2]).
  { destruct (Nat.lt_ge_cases n 3) as [Hlt|Hge]; [|now apply Hstop].
    rewrite (Kc Hlt). now left. }
  destruct (program_line_succeeds cfg os fd lc w Hs Hp Hc H1 H2 H3)
    as (c1 & c2 & Hc1 & Hc2 & Hrun).
  exists {| c_cflag := c2; c_speed := B cfg (speed lc) |}. eexists.
  split.
  { unfold OpenFile. fold fd. apply Z.eqb_neq in Hfd. rewrite Hfd, Htty, Hattr.
    cbn [Z.eqb negb]. fold lc. exact Hrun. }
  split; [cbn; now rewrite <- app_assoc|]. cbn [c_speed c_cflag].
  apply switch_parity_returns in Hc1. apply switch_cstopb_returns in Hc2.
  set (raw := raw_cflag cfg) in *.
  split; [intros Hlt; now rewrite (Ks Hlt)|]. split.
  - intros Hlt. specialize (Kp Hlt).
    destruct Hc1 as [(_ & ->)|[(Hq & _)|(Hq & _)]];
      try (rewrite Kp in Hq; discriminate).
    destruct Hc2 as [(_ & ->)|(_ & ->)]; split; bitwise.
  - intros Hlt. specialize (Kc Hlt).
    destruct Hc2 as [(_ & ->)|(Hq & _)]; [|rewrite Kc in Hq; discriminate].
    clear D1 D2 D3 D4. bitwise.
Qed.

(** The configuration ["9600"]: the rate is taken, parity and stop bits
    are programmed as the defaults; and the empty configuration. *)
Lemma OpenFile_unspecified_fields_default_witness :
  (exists tios w',
     OpenFile (Fixture.linux true) Fixture.os0 "/dev/ttyUSB0" "9600" Fixture.w0
       = Returns (7, w')
     /\ w_trace w' = [EvTcsetattr 7 tios; EvTcflush 7]
     /\ Z.land (c_cflag tios) 256 = 0
     /\ Z.land (c_cflag tios) 64 = 0)
  /\ (exists tios w',
        OpenFile (Fixture.linux true) Fixture.os0 "/dev/ttyUSB0" "" Fixture.w0
          = Returns (7, w')
        /\ w_trace w' = [EvTcsetattr 7 tios; EvTcflush 7]
        /\ c_speed tios = 4098).
Proof.
  split.
  - destruct (OpenFile_unspecified_fields_default (Fixture.linux true) Fixture.os0
                "/dev/ttyUSB0" "9600" Fixture.w0) as (_ & _ & _ & Hrun).
    destruct Hrun as (tios & w' & Hrun & Htr & _ & Hpar & Hstop);
      try reflexivity; try discriminate.
    + intros _. cbn. tauto.
    + cbn. lia.
    + cbn. lia.
    + exists tios, w'. split; [exact Hrun|]. split; [exact Htr|].
      split; [apply Hpar; cbn; lia|apply Hstop; cbn; lia].
  - destruct (OpenFile_unspecified_fields_default (Fixture.linux true) Fixture.os0
                "/dev/ttyUSB0" "" Fixture.w0) as (_ & _ & _ & Hrun).
    destruct Hrun as (tios & w' & Hrun & Htr & Hspeed & _);
      try reflexivity; try discriminate.
    + cbn. lia.
    + cbn. lia.
    + cbn. lia.
    + exists tios, w'. split; [exact Hrun|]. split; [exact Htr|].
      apply Hspeed. cbn. lia.
Defined.

(** ** The result of [read] *)

(** X18.  One read/decode cycle, by the result [rv] of its [read] and the
    [errno] that [perror] leaves.  Negative, and [errno] reads [EAGAIN]
    after the report: [Read] returns with the manager as it was and no
    decoder run in the trace.  Negative, and [errno] reads anything else
    after the report: the process is aborted.  Zero: [Read] returns and
    nothing but the [read] has happened.  Positive (and, as [read]
    promises, no more than the [kMaxFrameSize] asked for): the decoder is
    run on the first [rv] bytes of the buffer and on nothing else. *)
Theorem Read_dispatches_on_errno_after_perror
    (cfg : BuildConfig) (os : OS) (enc : HdlcEncoder) (dec : HdlcDecoder)
    (cb : Callbacks) (depth : nat) (st : HdlcInterface dec) (w : World) :
  let r := os_read os (w_nread w) (mSockFd st) (kMaxFrameSize cfg) in
  let seen := EvRead (mSockFd st) (kMaxFrameSize cfg) (r_rval r) in
  let bytes := firstn (Z.to_nat (r_rval r)) (r_buffer r) in
  (r_rval r < 0 -> os_perror os (r_errno r) = EAGAIN cfg ->
     exists w',
       Read cfg os enc dec cb (S depth) (st, w) = Returns (st, w')
       /\ w_trace w' = (w_trace w ++ [seen; EvPerror "HdlcInterface::Read()"])%list)
  /\ (r_rval r < 0 -> os_perror os (r_errno r) <> EAGAIN cfg ->
        Read cfg os enc dec cb (S depth) (st, w) = Aborts)
  /\ (r_rval r = 0 ->
        exists w',
          Read cfg os enc dec cb (S depth) (st, w) = Returns (st, w')
          /\ w_trace w' = (w_trace w ++ [seen])%list)
  /\ (0 < r_rval r <= kMaxFrameSize cfg -> kMaxFrameSize cfg < 2 ^ 16 ->
        Read cfg os enc dec cb (S depth) (st, w) =
          Decode cfg os enc dec cb (Read cfg os enc dec cb depth) (r_buffer r) (r_rval r)
            (st, snd (sys_read os (mSockFd st) (kMaxFrameSize cfg) w))
        /\ ((forall frame, cb frame = []) ->
            exists st' w' evs,
              Read cfg os enc dec cb (S depth) (st, w) = Returns (st', w')
              /\ mHdlcDecoder st' = Decoder_feed dec (mHdlcDecoder st) bytes
              /\ w_trace w' = (w_trace w ++ seen :: EvDecode bytes :: evs)%list
              /\ Forall callback_event evs)).
Proof.
  intros r seen bytes. cbn [Read]. unfold Read_body, sys_read. fold r.
  split; [|split; [|split]].
  - intros Hneg Herr. apply Z.ltb_lt in Hneg. rewrite Hneg. cbn [w_errno perror].
    rewrite Herr, Z.eqb_refl. cbn [negb bind].
    apply Z.ltb_lt in Hneg.
    destruct (0 <? r_rval r) eqn:E; [apply Z.ltb_lt in E; lia|].
    eexists. split; [reflexivity|]. cbn. now rewrite <- app_assoc.
  - intros Hneg Herr. apply Z.ltb_lt in Hneg. rewrite Hneg. cbn [w_errno perror].
    apply Z.eqb_neq in Herr. rewrite Herr. reflexivity.
  - intros Hz. subst seen. rewrite Hz. cbn. eexists. split; reflexivity.
  - intros Hrv Hmax.
    destruct (r_rval r <? 0) eqn:Eneg; [apply Z.ltb_lt in Eneg; lia|].
    cbn [bind]. destruct (0 <? r_rval r) eqn:Epos; [|apply Z.ltb_ge in Epos; lia].
    rewrite uint16_t_small by lia. cbn [snd]. split; [reflexivity|].
    intros Hquiet.
    match goal with
    | |- context [Decode cfg os enc dec cb ?n ?b ?len (st, ?w1)] =>
        destruct (Decode_quiet cfg os enc dec cb n Hquiet b len st w1)
          as (w' & evs & Hrun & Htr & Hev & _)
    end.
    rewrite Hrun. do 3 eexists. split; [reflexivity|].
    split; [reflexivity|]. split; [|exact Hev].
    rewrite Htr. cbn. now rewrite <- app_assoc.
Qed.

(** A [read] that would block, one that fails with [EIO], and one that
    brings two bytes, where [perror] keeps [errno]. *)
Lemma Read_dispatches_on_errno_after_perror_witness :
  (exists w',
     Read (Fixture.linux true) (Fixture.os_read_fails 11) Fixture.enc0 Fixture.dec0
       Fixture.quiet 1 (Fixture.manager 7, Fixture.w0) = Returns (Fixture.manager 7, w')
     /\ w_trace w' = [EvRead 7 2048 (-1); EvPerror "HdlcInterface::Read()"])
  /\ Read (Fixture.linux true) (Fixture.os_read_fails Fixture.EIO) Fixture.enc0
       Fixture.dec0 Fixture.quiet 1 (Fixture.manager 7, Fixture.w0) = Aborts
  /\ (exists st' w' evs,
        Read (Fixture.linux true) Fixture.os_two_reads Fixture.enc0 Fixture.dec0
          Fixture.quiet 1 (Fixture.manager 7, Fixture.w0) = Returns (st', w')
        /\ w_trace w' = EvRead 7 2048 2 :: EvDecode ["001"; "~"]%byte :: evs).
Proof.
  split; [|split].
  - destruct (Read_dispatches_on_errno_after_perror (Fixture.linux true)
                (Fixture.os_read_fails 11) Fixture.enc0 Fixture.dec0 Fixture.quiet 0
                (Fixture.manager 7) Fixture.w0) as (H & _).
    apply H; [cbn; lia|reflexivity].
  - destruct (Read_dispatches_on_errno_after_perror (Fixture.linux true)
                (Fixture.os_read_fails Fixture.EIO) Fixture.enc0 Fixture.dec0
                Fixture.quiet 0 (Fixture.manager 7) Fixture.w0) as (_ & H & _).
    apply H; [cbn; lia|discriminate].
  - destruct (Read_dispatches_on_errno_after_perror (Fixture.linux true)
                Fixture.os_two_reads Fixture.enc0 Fixture.dec0 Fixture.quiet 0
                (Fixture.manager 7) Fixture.w0) as (_ & _ & _ & H).
    destruct H as (_ & H); [cbn; lia|cbn; lia|].
    destruct (H (fun _ => eq_refl)) as (st' & w' & evs & Hrun & _ & Htr & _).
    exists st', w', evs. split; [exact Hrun|exact Htr].
Defined.
